(** * Mood tracker: landmark-to-emotion inference, detection loop, persistence

    Shallow embedding of
    - [src/frontend/src/components/MoodTracker.js] (the React component:
      model loading, the detection tick, the emotion heuristics, saving), and
    - the mood controller, router and schema of the backend.

    Numbers.  A JavaScript [Number] is an IEEE-754 double; it is modelled
    here by a real number ([R]), so every arithmetic operation is exact and
    there is neither NaN nor infinity nor a signed zero.  [Math.random()]
    is modelled by an explicit sequence of draws.

    Left out, because nothing that is decided depends on it: logging,
    alerts, the drawing on the canvas, the rendering, and the diagnostic
    object [window.debugFaceMetrics]. *)

From Stdlib Require Import Reals Lra Lia ZArith List String Bool Permutation Sorted.
Import ListNotations.
Open Scope R_scope.

(** ** JavaScript comparisons on numbers, as booleans *)

Definition Rgtb (a b : R) : bool := if Rgt_dec a b then true else false.
Definition Rltb (a b : R) : bool := if Rlt_dec a b then true else false.
Definition Reqb (a b : R) : bool := if Req_dec_T a b then true else false.

Infix ">?" := Rgtb (at level 70, no associativity) : R_scope.
Infix "<?" := Rltb (at level 70, no associativity) : R_scope.

(** [x || d] on numbers: [x] unless [x] is falsy, and the only falsy real
    is zero. *)
Definition num_or (x d : R) : R := if Reqb x 0 then d else x.

(** [Math.atan2(y, x)], from its ECMAScript definition (without signed
    zeros). *)
Definition atan2 (y x : R) : R :=
  if x >? 0 then atan (y / x)
  else if x <? 0 then (if y <? 0 then atan (y / x) - PI else atan (y / x) + PI)
  else if y >? 0 then PI / 2
  else if y <? 0 then - (PI / 2)
  else 0.

(** ** The emotion object *)

(** The five keys, in the order in which every emotion object literal of
    the component lists them; [Object.keys] enumerates them in this order. *)
Inductive Label := neutral | happy | sad | angry | surprised.

Definition keys : list Label := [neutral; happy; sad; angry; surprised].

(** Position of a key in [Object.keys]. *)
Definition key_index (k : Label) : nat :=
  match k with
  | neutral => 0 | happy => 1 | sad => 2 | angry => 3 | surprised => 4
  end%nat.

Record Emotions := mkEmotions {
  e_neutral : R;
  e_happy : R;
  e_sad : R;
  e_angry : R;
  e_surprised : R
}.

(** [emotions[key]] *)
Definition get (e : Emotions) (k : Label) : R :=
  match k with
  | neutral => e_neutral e
  | happy => e_happy e
  | sad => e_sad e
  | angry => e_angry e
  | surprised => e_surprised e
  end.

(** [emotions[key] = v] *)
Definition set (e : Emotions) (k : Label) (v : R) : Emotions :=
  match k with
  | neutral => mkEmotions v (e_happy e) (e_sad e) (e_angry e) (e_surprised e)
  | happy => mkEmotions (e_neutral e) v (e_sad e) (e_angry e) (e_surprised e)
  | sad => mkEmotions (e_neutral e) (e_happy e) v (e_angry e) (e_surprised e)
  | angry => mkEmotions (e_neutral e) (e_happy e) (e_sad e) v (e_surprised e)
  | surprised => mkEmotions (e_neutral e) (e_happy e) (e_sad e) (e_angry e) v
  end.

(** [Object.values(emotions)] *)
Definition values (e : Emotions) : list R := map (get e) keys.

(** [Object.values(emotions).reduce((sum, val) => sum + val, 0)] *)
Definition total_of (e : Emotions) : R := fold_left Rplus (values e) 0.

(** [Object.keys(emotions).forEach(key => { emotions[key] = emotions[key] / total; })] *)
Definition divide_all (e : Emotions) (total : R) : Emotions :=
  fold_left (fun em key => set em key (get em key / total)) keys e.

(** The two normalisation statements that close both [getRandomEmotions]
    and [calculateEmotionsFromLandmarks]. *)
Definition normalize (e : Emotions) : Emotions := divide_all e (total_of e).

(** [Object.keys(emotions).reduce((a, b) => emotions[a] > emotions[b] ? a : b)]:
    no initial value, so the accumulator starts at the first key. *)
Definition dominantEmotion (e : Emotions) : Label :=
  match keys with
  | [] => neutral
  | k0 :: rest => fold_left (fun a b => if get e a >? get e b then a else b) rest k0
  end.

(** ** Per-emotion heuristics *)

Definition calculateSadnessScore (isMouthTurnedDown : bool)
    (mouthCornerDiff mouthRatio : R) : R :=
  let score := 0 in
  let score := if isMouthTurnedDown then score + 0.4 else score in
  let score := if mouthCornerDiff >? 4 then score + 0.2
               else if mouthCornerDiff >? 2.5 then score + 0.1
               else score in
  let score := if mouthRatio <? 1.5 then score + 0.15 else score in
  Rmin 0.7 score.

Definition calculateAngerScore (eyebrowLowered eyebrowsAngledInward : bool)
    (leftAngle rightAngle : R) : R :=
  let score := 0 in
  let score := if eyebrowLowered then score + 0.3 else score in
  let score := if eyebrowsAngledInward then score + 0.25
               else if (leftAngle <? -15) || (rightAngle >? 15) then score + 0.15
               else score in
  Rmin 0.6 score.

Definition calculateSurpriseScore (eyebrowRaised eyesWideOpen isMouthOpen : bool) : R :=
  let score := 0 in
  let score := if eyebrowRaised then score + 0.4 else score in
  let score := if eyesWideOpen then score + 0.3 else score in
  let score := if isMouthOpen then score + 0.3 else score in
  Rmin 0.9 score.

Definition calculateHappinessScore (mouthRatio : R) (isMouthTurnedDown : bool) : R :=
  let score := 0 in
  let score := if mouthRatio >? 3.0 then score + 0.8
               else if mouthRatio >? 2.5 then score + 0.6
               else if mouthRatio >? 2.0 then score + 0.4
               else if mouthRatio >? 1.5 then score + 0.2
               else score in
  let score := if isMouthTurnedDown then Rmax 0 (score - 0.2) else score in
  Rmin 0.95 score.

(** ** Landmarks *)

(** A landmark is an array [[x, y]] or [[x, y, z]]; the component reads
    [p[0]] and [p[1]] only. *)
Record Point := mkPoint { px : R; py : R }.

(** An entry of the mesh array: a point, or [None] for [undefined]/[null]. *)
Definition Entry := option Point.

(** The argument of [calculateEmotionsFromLandmarks]: [None] is a missing
    mesh ([undefined]/[null]), [Some l] an array. *)
Definition Landmarks := option (list Entry).

(** [landmarks[i]]: out of range reads [undefined]. *)
Definition at_index (l : list Entry) (i : nat) : Entry :=
  match nth_error l i with
  | Some e => e
  | None => None
  end.

(** [landmarks[i] || landmarks[j]]: every array is truthy, so the second
    operand is taken exactly when the first is [undefined]/[null]. *)
Definition at_index_or (l : list Entry) (i j : nat) : Entry :=
  match at_index l i with
  | Some p => Some p
  | None => at_index l j
  end.

(** The measurements of the "CALCULATE CORE METRICS" part. *)
Record FaceMetrics := mkFaceMetrics {
  mouthWidth : R;
  mouthHeight : R;
  mouthCornerDiff : R;
  isMouthTurnedDown : bool;
  isMouthOpen : bool;
  mouthRatio : R;
  leftEyebrowHeight : R;
  rightEyebrowHeight : R;
  eyebrowRaised : bool;
  eyebrowLowered : bool;
  leftEyebrowAngle : R;
  rightEyebrowAngle : R;
  eyebrowsAngledInward : bool;
  leftEyeOpenness : R;
  rightEyeOpenness : R;
  eyesWideOpen : bool
}.

(** ** A state and exception monad for the body of the [try] block

    The store holds what the block mutates: the local object [emotions]
    and the number of [Math.random()] calls made so far.  [Throw] is a
    raised [TypeError] (reading a coordinate of [undefined]); it keeps the
    store as it was when the error was raised, which is what the [catch]
    clause sees. *)
Record Store := mkStore { emotions : Emotions; calls : nat }.

Inductive Res (A : Type) : Type :=
| Ok (a : A) (s : Store)
| Throw (s : Store).
Arguments Ok {A} a s.
Arguments Throw {A} s.

Definition M (A : Type) : Type := Store -> Res A.

Definition ret {A} (a : A) : M A := fun s => Ok a s.

Definition bind {A B} (m : M A) (f : A -> M B) : M B :=
  fun s => match m s with
           | Ok a s' => f a s'
           | Throw s' => Throw s'
           end.

Notation "x <- m ;; k" := (bind m (fun x => k))
  (at level 61, m at next level, right associativity).
Notation "m ;;; k" := (bind m (fun _ => k))
  (at level 61, right associativity).

Definition throw {A} : M A := fun s => Throw s.

(** [p[0]] and [p[1]] *)
Definition coord0 (p : Entry) : M R :=
  match p with Some q => ret (px q) | None => throw end.
Definition coord1 (p : Entry) : M R :=
  match p with Some q => ret (py q) | None => throw end.

(** [emotions[key]] and [emotions[key] = v] on the local object *)
Definition readE (k : Label) : M R := fun s => Ok (get (emotions s) k) s.
Definition writeE (k : Label) (v : R) : M unit :=
  fun s => Ok tt (mkStore (set (emotions s) k v) (calls s)).
Definition modifyE (f : Emotions -> Emotions) : M unit :=
  fun s => Ok tt (mkStore (f (emotions s)) (calls s)).
Definition currentE : M Emotions := fun s => Ok (emotions s) s.

(** [Math.random()]: the next draw of the sequence [rnd]. *)
Definition random (rnd : nat -> R) : M R :=
  fun s => Ok (rnd (calls s)) (mkStore (emotions s) (S (calls s))).

(** [keys.forEach(f)] *)
Fixpoint forEach {A} (l : list A) (f : A -> M unit) : M unit :=
  match l with
  | [] => ret tt
  | x :: rest => f x ;;; forEach rest f
  end.

(** ** [calculateEmotionsFromLandmarks] *)

(** The default object literal bound to [emotions] on entry. *)
Definition defaultEmotions : Emotions := mkEmotions 0.17 0.50 0.10 0.08 0.15.

(** The key points and the core metrics: the [try] block up to the
    "EMOTION DETECTION LOGIC" part.  Looking a key point up never throws;
    reading a coordinate of a key point that is [undefined] does.  The
    points [noseTip], [leftCheek], [rightCheek] and [forehead] are looked up
    and never read. *)
Definition faceMetrics (landmarks : list Entry) : M FaceMetrics :=
  let mouthLeft := at_index_or landmarks 61 0 in
  let mouthRight := at_index_or landmarks 291 1 in
  let upperLip := at_index_or landmarks 13 2 in
  let lowerLip := at_index_or landmarks 14 3 in
  let mouthCenter := at_index_or landmarks 0 4 in
  let leftEye := at_index_or landmarks 159 5 in
  let rightEye := at_index_or landmarks 386 6 in
  let leftEyeTop := at_index_or landmarks 159 7 in
  let leftEyeBottom := at_index_or landmarks 145 8 in
  let rightEyeTop := at_index_or landmarks 386 9 in
  let rightEyeBottom := at_index_or landmarks 374 10 in
  let leftEyebrowOuter := at_index_or landmarks 65 11 in
  let leftEyebrowInner := at_index_or landmarks 105 12 in
  let rightEyebrowOuter := at_index_or landmarks 295 13 in
  let rightEyebrowInner := at_index_or landmarks 334 14 in
  let noseTip := at_index_or landmarks 1 15 in
  let leftCheek := at_index_or landmarks 187 16 in
  let rightCheek := at_index_or landmarks 411 17 in
  let forehead := at_index_or landmarks 151 18 in
  (* mouth *)
  mrx <- coord0 mouthRight ;; mlx <- coord0 mouthLeft ;;
  mry <- coord1 mouthRight ;; mly <- coord1 mouthLeft ;;
  let mouthWidth := sqrt ((mrx - mlx) ^ 2 + (mry - mly) ^ 2) in
  ulx <- coord0 upperLip ;; llx <- coord0 lowerLip ;;
  uly <- coord1 upperLip ;; lly <- coord1 lowerLip ;;
  let mouthHeight := sqrt ((ulx - llx) ^ 2 + (uly - lly) ^ 2) in
  let mouthCornerDiff := Rabs (mly - mry) in
  mcy <- coord1 mouthCenter ;;
  let isMouthTurnedDown := (mly >? mcy) && (mry >? mcy) in
  let isMouthOpen := mouthHeight >? mouthWidth * 0.3 in
  let mouthRatio := mouthWidth / num_or mouthHeight 1 in
  (* eyebrows *)
  leoy <- coord1 leftEyebrowOuter ;; ley <- coord1 leftEye ;;
  let leftEyebrowHeight := Rabs (leoy - ley) in
  reoy <- coord1 rightEyebrowOuter ;; rey <- coord1 rightEye ;;
  let rightEyebrowHeight := Rabs (reoy - rey) in
  let eyebrowRaised := (leftEyebrowHeight >? 25) || (rightEyebrowHeight >? 25) in
  let eyebrowLowered := (leftEyebrowHeight <? 15) || (rightEyebrowHeight <? 15) in
  leiy <- coord1 leftEyebrowInner ;;
  leox <- coord0 leftEyebrowOuter ;; leix <- coord0 leftEyebrowInner ;;
  let leftEyebrowAngle := atan2 (leoy - leiy) (leox - leix) * (180 / PI) in
  reiy <- coord1 rightEyebrowInner ;;
  reix <- coord0 rightEyebrowInner ;; reox <- coord0 rightEyebrowOuter ;;
  let rightEyebrowAngle := atan2 (reiy - reoy) (reix - reox) * (180 / PI) in
  let eyebrowsAngledInward := (leftEyebrowAngle <? -15) && (rightEyebrowAngle >? 15) in
  (* eyes *)
  lety <- coord1 leftEyeTop ;; leby <- coord1 leftEyeBottom ;;
  let leftEyeOpenness := Rabs (lety - leby) in
  rety <- coord1 rightEyeTop ;; reby <- coord1 rightEyeBottom ;;
  let rightEyeOpenness := Rabs (rety - reby) in
  let eyesWideOpen := (leftEyeOpenness >? 15) || (rightEyeOpenness >? 15) in
  ret (mkFaceMetrics mouthWidth mouthHeight mouthCornerDiff isMouthTurnedDown
         isMouthOpen mouthRatio leftEyebrowHeight rightEyebrowHeight
         eyebrowRaised eyebrowLowered leftEyebrowAngle rightEyebrowAngle
         eyebrowsAngledInward leftEyeOpenness rightEyeOpenness eyesWideOpen).

(** "EMOTION DETECTION LOGIC": the five scores and their assignment to
    the keys of [emotions]. *)
Definition assignScores (fm : FaceMetrics) : M unit :=
  let sadnessScore :=
    calculateSadnessScore (isMouthTurnedDown fm) (mouthCornerDiff fm) (mouthRatio fm) in
  let angerScore :=
    calculateAngerScore (eyebrowLowered fm) (eyebrowsAngledInward fm)
      (leftEyebrowAngle fm) (rightEyebrowAngle fm) in
  let surpriseScore :=
    calculateSurpriseScore (eyebrowRaised fm) (eyesWideOpen fm) (isMouthOpen fm) in
  let happinessScore := calculateHappinessScore (mouthRatio fm) (isMouthTurnedDown fm) in
  let neutralScore :=
    0.4 - (sadnessScore + angerScore + surpriseScore + happinessScore) / 2 in
  writeE sad (Rmax 0.1 sadnessScore) ;;;
  writeE angry (Rmax 0.1 angerScore) ;;;
  writeE surprised (Rmax 0.1 surpriseScore) ;;;
  writeE happy (Rmin 0.7 happinessScore) ;;;
  writeE neutral (Rmax 0.05 neutralScore).

(** The noise loop: one draw per key, in key order, then the clamp at 0. *)
Definition addNoise (rnd : nat -> R) : M unit :=
  forEach keys (fun key =>
    v <- readE key ;;
    r <- random rnd ;;
    writeE key (v + (r * 0.05 - 0.025)) ;;;
    v' <- readE key ;;
    writeE key (Rmax 0 v')).

(** The whole [try] block; it returns the object [emotions]. *)
Definition tryBlock (rnd : nat -> R) (landmarks : list Entry) : M Emotions :=
  fm <- faceMetrics landmarks ;;
  assignScores fm ;;;
  addNoise rnd ;;;
  modifyE normalize ;;;
  currentE.

(** [calculateEmotionsFromLandmarks(landmarks)]; [rnd k] is the result of
    the [k]-th call of [Math.random()] made by this invocation.  The
    [catch] clause returns the object [emotions] as the store holds it at
    the time of the error. *)
Definition calculateEmotionsFromLandmarks (rnd : nat -> R) (landmarks : Landmarks)
    : Emotions :=
  let emotions0 := defaultEmotions in
  match landmarks with
  | None => emotions0
  | Some l =>
      if (List.length l <? 20)%nat then emotions0
      else match tryBlock rnd l (mkStore emotions0 0) with
           | Ok e _ => e
           | Throw s => emotions s
           end
  end.

(** ** The simulator of the basic mode *)

(** The object literal that [getRandomEmotions] binds to [emotions],
    chosen by [cyclePosition]; its five calls of [Math.random()] are
    [rnd 0] .. [rnd 4], in key order. *)
Definition drawProfile (rnd : nat -> R) (cyclePosition : R) : Emotions :=
  if cyclePosition <? 0.3 then
    mkEmotions (0.3 + rnd 0%nat * 0.2) (0.4 + rnd 1%nat * 0.3) (rnd 2%nat * 0.2)
               (rnd 3%nat * 0.1) (rnd 4%nat * 0.1)
  else if cyclePosition <? 0.6 then
    mkEmotions (0.6 + rnd 0%nat * 0.2) (0.1 + rnd 1%nat * 0.2) (0.1 + rnd 2%nat * 0.1)
               (rnd 3%nat * 0.1) (rnd 4%nat * 0.1)
  else
    mkEmotions (0.3 + rnd 0%nat * 0.3) (0.1 + rnd 1%nat * 0.3) (0.1 + rnd 2%nat * 0.3)
               (0.05 + rnd 3%nat * 0.15) (0.05 + rnd 4%nat * 0.15).

(** [getRandomEmotions(cyclePosition)] *)
Definition getRandomEmotions (rnd : nat -> R) (cyclePosition : R) : Emotions :=
  let emotions := drawProfile rnd cyclePosition in
  normalize emotions.

(** [(time % 30000) / 30000]; [%] truncates towards zero, as [Z.rem]. *)
Definition cyclePositionAt (time : Z) : R := IZR (Z.rem time 30000) / 30000.

(** ** The backend: schema, controller, routes *)

(** What the UI shows about the detected face and hands (the bounding box
    and the per-hand key point counts are carried nowhere else and are left
    out). *)
Record FaceDetails := mkFaceDetails {
  facesDetected : nat;
  faceKeypoints : nat;
  faceConfidence : R;
  faceFallbackMode : bool
}.

Record HandDetails := mkHandDetails {
  handsDetected : nat;
  handedness : list string;
  handConfidence : list R;
  handFallbackMode : bool
}.

(** The [timestamp] property of a request body: absent, a number of
    milliseconds, or a date string denoting the instant [ms]. *)
Inductive JsTime :=
| TimeAbsent
| TimeNumber (ms : Z)
| TimeString (ms : Z).

(** [timestamp || now]: a non-empty string is truthy, the number 0 is not. *)
Definition time_or (t : JsTime) (now : Z) : Z :=
  match t with
  | TimeAbsent => now
  | TimeNumber ms => if (ms =? 0)%Z then now else ms
  | TimeString ms => ms
  end.

(** The JSON body of [POST /api/moods/log]. *)
Record Body := mkBody {
  b_mood : option string;
  b_notes : option string;
  b_emotionScores : option Emotions;
  b_faceDetails : option FaceDetails;
  b_handDetails : option HandDetails;
  b_timestamp : JsTime
}.

(** A document of the [MoodLog] collection, as the schema declares it. *)
Record MoodLog := mkMoodLog {
  log_id : nat;
  log_mood : string;
  log_date : Z;
  log_notes : string;
  log_emotionScores : option Emotions;
  log_faceDetails : option FaceDetails;
  log_handDetails : option HandDetails;
  log_timestamp : Z
}.

(** The collection: its documents in insertion order, and the next
    identifier to hand out. *)
Record Db := mkDb { docs : list MoodLog; nextId : nat }.

Inductive Payload :=
| SavedLog (m : MoodLog)
| Logs (l : list MoodLog)
| ErrorMessage (message : string).

Record Response := mkResponse { status : nat; payload : Payload }.

(** [new MoodLog({...})] followed by [save()]: the schema defaults fill
    [notes] and [date]; validation rejects a missing or empty [mood]
    ([required: true] on a [String] path). *)
Definition saveMoodLog (now : Z) (body : Body) (db : Db) : option (MoodLog * Db) :=
  match b_mood body with
  | None => None
  | Some m =>
      if String.eqb m EmptyString then None
      else
        let doc := mkMoodLog (nextId db) m now
                     (match b_notes body with Some n => n | None => EmptyString end)
                     (b_emotionScores body) (b_faceDetails body) (b_handDetails body)
                     (time_or (b_timestamp body) now) in
        Some (doc, mkDb (docs db ++ [doc]) (S (nextId db)))
  end.

(** [addMoodLog(req, res)]; [now] is [Date.now()]. *)
Definition addMoodLog (now : Z) (body : Body) (db : Db) : Response * Db :=
  match saveMoodLog now body db with
  | Some (newMoodLog, db') => (mkResponse 200 (SavedLog newMoodLog), db')
  | None => (mkResponse 500 (ErrorMessage "Error saving mood log"), db)
  end.

(** [sort({ timestamp: -1 })], as a stable insertion sort: a document goes
    behind every document whose timestamp is not older than its own. *)
Fixpoint insertByTimestamp (x : MoodLog) (l : list MoodLog) : list MoodLog :=
  match l with
  | [] => [x]
  | y :: ys =>
      if (log_timestamp y <? log_timestamp x)%Z then x :: y :: ys
      else y :: insertByTimestamp x ys
  end.

Definition sortNewestFirst (l : list MoodLog) : list MoodLog :=
  fold_left (fun acc x => insertByTimestamp x acc) l [].

(** [getMoodHistory(req, res)]: [MoodLog.find().sort({ timestamp: -1 }).limit(20)]. *)
Definition getMoodHistory (db : Db) : Response :=
  let logs := firstn 20 (sortNewestFirst (docs db)) in
  mkResponse 200 (Logs logs).

(** The router: the two routes mounted under [/api/moods]. *)
Inductive Request :=
| PostLog (body : Body)
| GetHistory.

Definition route (now : Z) (req : Request) (db : Db) : Response * Db :=
  match req with
  | PostLog body => addMoodLog now body db
  | GetHistory => (getMoodHistory db, db)
  end.

(** ** The component: state, effects, handlers *)

Definition label_name (k : Label) : string :=
  match k with
  | neutral => "neutral"
  | happy => "happy"
  | sad => "sad"
  | angry => "angry"
  | surprised => "surprised"
  end.

(** The [<video>] element behind [videoRef.current]. *)
Record Video := mkVideo { paused : bool; ended : bool; readyState : Z }.

(** A face and a hand as the models report them. *)
Record Face := mkFace {
  scaledMesh : Landmarks;
  mesh : Landmarks;
  faceInViewConfidence : R
}.

Record Hand := mkHand { handInViewConfidence : R }.

(** The body of the request that [handleSaveMood] posts. *)
Record MoodData := mkMoodData {
  md_mood : string;
  md_notes : string;
  md_emotionScores : option Emotions;
  md_faceDetails : option FaceDetails;
  md_handDetails : option HandDetails;
  md_timestamp : Z
}.

(** A [<script>] element made by [loadScript]: whether its [onload] and
    [onerror] properties hold a handler. *)
Record Script := mkScript { onload : bool; onerror : bool }.

(** Where the promise chain of [loadLibraries] stands: not yet built, the
    promise of the [n]-th script pending, the [startVideo()] of the chain
    pending, the two model loads pending, the final [then] run, or the
    [catch] run. *)
Inductive Phase :=
| Unloaded
| LoadingScript (n : nat)
| StartingVideo
| LoadingModels
| Loaded
| Failed.

(** The React state of the component, [videoRef.current], and the effects
    it has on its surroundings: the script elements appended to the page,
    the calls of [startVideo], the inference promises started and not yet
    settled, and the requests posted. *)
Record World := mkWorld {
  mood : string;
  emotionScores : option Emotions;
  notes : string;
  history : list MoodLog;
  faceModel : bool;
  handModel : bool;
  isVideoReady : bool;
  modelsLoaded : bool;
  faceDetails : option FaceDetails;
  handDetails : option HandDetails;
  error : string;
  isDetecting : bool;
  video : option Video;
  scripts : list Script;
  phase : Phase;
  videoStarts : nat;
  inFlight : nat;
  posted : list MoodData
}.

(** The state setters ([setMood], [setNotes], ...) and the updates of the
    effect fields. *)
Definition setMood (v : string) (w : World) : World :=
  mkWorld v (emotionScores w) (notes w) (history w) (faceModel w) (handModel w)
    (isVideoReady w) (modelsLoaded w) (faceDetails w) (handDetails w) (error w)
    (isDetecting w) (video w) (scripts w) (phase w) (videoStarts w) (inFlight w)
    (posted w).
Definition setEmotionScores (v : option Emotions) (w : World) : World :=
  mkWorld (mood w) v (notes w) (history w) (faceModel w) (handModel w)
    (isVideoReady w) (modelsLoaded w) (faceDetails w) (handDetails w) (error w)
    (isDetecting w) (video w) (scripts w) (phase w) (videoStarts w) (inFlight w)
    (posted w).
Definition setNotes (v : string) (w : World) : World :=
  mkWorld (mood w) (emotionScores w) v (history w) (faceModel w) (handModel w)
    (isVideoReady w) (modelsLoaded w) (faceDetails w) (handDetails w) (error w)
    (isDetecting w) (video w) (scripts w) (phase w) (videoStarts w) (inFlight w)
    (posted w).
Definition setHistory (v : list MoodLog) (w : World) : World :=
  mkWorld (mood w) (emotionScores w) (notes w) v (faceModel w) (handModel w)
    (isVideoReady w) (modelsLoaded w) (faceDetails w) (handDetails w) (error w)
    (isDetecting w) (video w) (scripts w) (phase w) (videoStarts w) (inFlight w)
    (posted w).
Definition setFaceModel (v : bool) (w : World) : World :=
  mkWorld (mood w) (emotionScores w) (notes w) (history w) v (handModel w)
    (isVideoReady w) (modelsLoaded w) (faceDetails w) (handDetails w) (error w)
    (isDetecting w) (video w) (scripts w) (phase w) (videoStarts w) (inFlight w)
    (posted w).
Definition setHandModel (v : bool) (w : World) : World :=
  mkWorld (mood w) (emotionScores w) (notes w) (history w) (faceModel w) v
    (isVideoReady w) (modelsLoaded w) (faceDetails w) (handDetails w) (error w)
    (isDetecting w) (video w) (scripts w) (phase w) (videoStarts w) (inFlight w)
    (posted w).
Definition setIsVideoReady (v : bool) (w : World) : World :=
  mkWorld (mood w) (emotionScores w) (notes w) (history w) (faceModel w)
    (handModel w) v (modelsLoaded w) (faceDetails w) (handDetails w) (error w)
    (isDetecting w) (video w) (scripts w) (phase w) (videoStarts w) (inFlight w)
    (posted w).
Definition setModelsLoaded (v : bool) (w : World) : World :=
  mkWorld (mood w) (emotionScores w) (notes w) (history w) (faceModel w)
    (handModel w) (isVideoReady w) v (faceDetails w) (handDetails w) (error w)
    (isDetecting w) (video w) (scripts w) (phase w) (videoStarts w) (inFlight w)
    (posted w).
Definition setFaceDetails (v : option FaceDetails) (w : World) : World :=
  mkWorld (mood w) (emotionScores w) (notes w) (history w) (faceModel w)
    (handModel w) (isVideoReady w) (modelsLoaded w) v (handDetails w) (error w)
    (isDetecting w) (video w) (scripts w) (phase w) (videoStarts w) (inFlight w)
    (posted w).
Definition setHandDetails (v : option HandDetails) (w : World) : World :=
  mkWorld (mood w) (emotionScores w) (notes w) (history w) (faceModel w)
    (handModel w) (isVideoReady w) (modelsLoaded w) (faceDetails w) v (error w)
    (isDetecting w) (video w) (scripts w) (phase w) (videoStarts w) (inFlight w)
    (posted w).
Definition setError (v : string) (w : World) : World :=
  mkWorld (mood w) (emotionScores w) (notes w) (history w) (faceModel w)
    (handModel w) (isVideoReady w) (modelsLoaded w) (faceDetails w) (handDetails
    w) v (isDetecting w) (video w) (scripts w) (phase w) (videoStarts w) (inFlight
    w) (posted w).
Definition setIsDetecting (v : bool) (w : World) : World :=
  mkWorld (mood w) (emotionScores w) (notes w) (history w) (faceModel w)
    (handModel w) (isVideoReady w) (modelsLoaded w) (faceDetails w) (handDetails
    w) (error w) v (video w) (scripts w) (phase w) (videoStarts w) (inFlight w)
    (posted w).
Definition setVideo (v : option Video) (w : World) : World :=
  mkWorld (mood w) (emotionScores w) (notes w) (history w) (faceModel w)
    (handModel w) (isVideoReady w) (modelsLoaded w) (faceDetails w) (handDetails
    w) (error w) (isDetecting w) v (scripts w) (phase w) (videoStarts w) (inFlight
    w) (posted w).
Definition setScripts (v : list Script) (w : World) : World :=
  mkWorld (mood w) (emotionScores w) (notes w) (history w) (faceModel w)
    (handModel w) (isVideoReady w) (modelsLoaded w) (faceDetails w) (handDetails
    w) (error w) (isDetecting w) (video w) v (phase w) (videoStarts w) (inFlight
    w) (posted w).
Definition setPhase (v : Phase) (w : World) : World :=
  mkWorld (mood w) (emotionScores w) (notes w) (history w) (faceModel w)
    (handModel w) (isVideoReady w) (modelsLoaded w) (faceDetails w) (handDetails
    w) (error w) (isDetecting w) (video w) (scripts w) v (videoStarts w) (inFlight
    w) (posted w).
Definition setVideoStarts (v : nat) (w : World) : World :=
  mkWorld (mood w) (emotionScores w) (notes w) (history w) (faceModel w)
    (handModel w) (isVideoReady w) (modelsLoaded w) (faceDetails w) (handDetails
    w) (error w) (isDetecting w) (video w) (scripts w) (phase w) v (inFlight w)
    (posted w).
Definition setInFlight (v : nat) (w : World) : World :=
  mkWorld (mood w) (emotionScores w) (notes w) (history w) (faceModel w)
    (handModel w) (isVideoReady w) (modelsLoaded w) (faceDetails w) (handDetails
    w) (error w) (isDetecting w) (video w) (scripts w) (phase w) (videoStarts w) v
    (posted w).
Definition setPosted (v : list MoodData) (w : World) : World :=
  mkWorld (mood w) (emotionScores w) (notes w) (history w) (faceModel w)
    (handModel w) (isVideoReady w) (modelsLoaded w) (faceDetails w) (handDetails
    w) (error w) (isDetecting w) (video w) (scripts w) (phase w) (videoStarts w)
    (inFlight w) v.

(** *** Loading the libraries and the models *)

(** [startVideo()]: the camera is requested; the outcome of the request
    arrives later, as an event. *)
Definition startVideo (w : World) : World := setVideoStarts (S (videoStarts w)) w.

(** [loadScript(src)]: a new element with both handlers assigned is
    appended to the page, its promise is pending and its 10000 ms timer is
    armed. *)
Definition loadScript (w : World) : World :=
  setScripts (scripts w ++ [mkScript true true]) w.

(** [loadLibraries()], up to the first pending promise. *)
Definition loadLibraries (w : World) : World :=
  setPhase (LoadingScript 0) (loadScript (setError EmptyString w)).

(** The [catch] handler of the chain. *)
Definition loadFailed (w : World) : World :=
  setModelsLoaded true
    (setError "AI detection couldn't be loaded. Using basic mode."
       (startVideo (setPhase Failed w))).

(** [resolve()] of the promise of script [n]: the next [then] of the chain
    runs when that promise is the pending one. *)
Definition resolveScript (n : nat) (w : World) : World :=
  match phase w with
  | LoadingScript m =>
      if (n =? m)%nat then
        if (m <? 2)%nat then setPhase (LoadingScript (S m)) (loadScript w)
        else setPhase StartingVideo (startVideo w)
      else w
  | _ => w
  end.

(** [reject(...)] of the promise of script [n]. *)
Definition rejectScript (n : nat) (w : World) : World :=
  match phase w with
  | LoadingScript m => if (n =? m)%nat then loadFailed w else w
  | _ => w
  end.

(** The browser fires [load] on script [n]. *)
Definition scriptOnload (n : nat) (w : World) : World :=
  match nth_error (scripts w) n with
  | Some sc => if onload sc then resolveScript n w else w
  | None => w
  end.

(** The browser fires [error] on script [n]. *)
Definition scriptOnerror (n : nat) (w : World) : World :=
  match nth_error (scripts w) n with
  | Some sc => if onerror sc then rejectScript n w else w
  | None => w
  end.

(** The callback given to [setTimeout(..., 10000)] for script [n]:
    [if (!script.onload) { reject(...) }]. *)
Definition scriptTimeout (n : nat) (w : World) : World :=
  match nth_error (scripts w) n with
  | Some sc => if negb (onload sc) then rejectScript n w else w
  | None => w
  end.

(** [getUserMedia] settles: [startVideo] returns normally either way (it
    catches the refusal and sets the error), so the chain goes on to the
    model loads. *)
Definition streamSettled (granted : bool) (w : World) : World :=
  let w := if granted then w
           else setError "Unable to access webcam. Please check permissions and try again." w in
  match phase w with
  | StartingVideo => setPhase LoadingModels w
  | _ => w
  end.

(** [onloadedmetadata]; [v] is the element as it then stands. *)
Definition videoMetadata (v : Video) (w : World) : World :=
  setIsVideoReady true (setVideo (Some v) w).

(** The last [then] of the chain: both models loaded. *)
Definition modelsResolved (w : World) : World :=
  match phase w with
  | LoadingModels =>
      setPhase Loaded (setModelsLoaded true (setHandModel true (setFaceModel true w)))
  | _ => w
  end.

Definition modelsRejected (w : World) : World :=
  match phase w with
  | LoadingModels => loadFailed w
  | _ => w
  end.

(** *** The detection tick *)

(** [handleFallbackDetection()]; [time] is [new Date().getTime()], and
    [rnd 5] is the draw of the simulated confidence. *)
Definition handleFallbackDetection (time : Z) (rnd : nat -> R) (w : World) : World :=
  let cyclePosition := cyclePositionAt time in
  let basicEmotions := getRandomEmotions rnd cyclePosition in
  let w := setEmotionScores (Some basicEmotions) w in
  let dominant := dominantEmotion basicEmotions in
  let w := setMood (label_name dominant) w in
  let w := setFaceDetails (Some (mkFaceDetails 1 0 (0.7 + rnd 5%nat * 0.2) true)) w in
  let w := setHandDetails (Some (mkHandDetails 0 [] [] true)) w in
  setIsDetecting false w.

(** [runDetection()], up to the point where it returns: in AI mode the two
    inferences are started and their joint promise is pending. *)
Definition runDetection (time : Z) (rnd : nat -> R) (w : World) : World :=
  match video w with
  | None => w
  | Some v =>
      if negb (isVideoReady w) || paused v || ended v || (readyState v <? 2)%Z then w
      else
        let useAIMode := faceModel w && handModel w in
        let w := setIsDetecting true w in
        if useAIMode then setInFlight (S (inFlight w)) w
        else handleFallbackDetection time rnd w
  end.

(** [a || b] on meshes. *)
Definition mesh_or (a b : Landmarks) : Landmarks :=
  match a with Some l => Some l | None => b end.

(** The [then] handler of an inference: [faces] and [hands] are what the
    two models returned. *)
Definition inferenceResolved (faces : list Face) (hands : list Hand)
    (rnd : nat -> R) (w : World) : World :=
  let w := setInFlight (pred (inFlight w)) w in
  let w :=
    match faces with
    | firstFace :: _ =>
        let landmarks := mesh_or (scaledMesh firstFace) (mesh firstFace) in
        let faceConfidence := num_or (faceInViewConfidence firstFace) 0.98 in
        let emotions := calculateEmotionsFromLandmarks rnd landmarks in
        let w := setEmotionScores (Some emotions) w in
        let dominant := dominantEmotion emotions in
        let w := setMood (label_name dominant) w in
        setFaceDetails
          (Some (mkFaceDetails (List.length faces)
                   (match landmarks with Some l => List.length l | None => 0%nat end)
                   faceConfidence false)) w
    | [] => setFaceDetails (Some (mkFaceDetails 0 0 0 false)) w
    end in
  let w :=
    match hands with
    | _ :: _ =>
        setHandDetails
          (Some (mkHandDetails (List.length hands)
                   (map (fun hand => if handInViewConfidence hand >? 0.5
                                     then "Left"%string else "Right"%string) hands)
                   (map (fun hand => num_or (handInViewConfidence hand) 0.9) hands)
                   false)) w
    | [] => setHandDetails (Some (mkHandDetails 0 [] [] false)) w
    end in
  setIsDetecting false w.

(** The [catch] handler of an inference. *)
Definition inferenceRejected (time : Z) (rnd : nat -> R) (w : World) : World :=
  handleFallbackDetection time rnd (setInFlight (pred (inFlight w)) w).

(** *** Saving *)

(** [handleSaveMood()]; [now] is the instant of [new Date()]. *)
Definition handleSaveMood (now : Z) (w : World) : World :=
  if String.eqb (mood w) EmptyString then w
  else
    let moodData := mkMoodData (mood w) (notes w) (emotionScores w)
                      (faceDetails w) (handDetails w) now in
    setPosted (posted w ++ [moodData]) w.

(** The response to the post is [ok]: the saved record goes in front of the
    first 19 entries of the history, and the notes are cleared. *)
Definition saveSucceeded (savedData : MoodLog) (w : World) : World :=
  setNotes EmptyString (setHistory (savedData :: firstn 19 (history w)) w).

(** The body that a posted [MoodData] is on the wire. *)
Definition bodyOf (d : MoodData) : Body :=
  mkBody (Some (md_mood d)) (Some (md_notes d)) (md_emotionScores d)
    (md_faceDetails d) (md_handDetails d) (TimeString (md_timestamp d)).

(** *** Events *)

Inductive Event :=
| ScriptLoad (n : nat)
| ScriptError (n : nat)
| ScriptTimer (n : nat)
| StreamSettled (granted : bool)
| VideoMetadata (v : Video)
| ModelsResolved
| ModelsRejected
| Tick (time : Z) (rnd : nat -> R)
| InferenceResolved (faces : list Face) (hands : list Hand) (rnd : nat -> R)
| InferenceRejected (time : Z) (rnd : nat -> R)
| NotesTyped (text : string)
| SaveClicked (now : Z)
| SaveSucceeded (savedData : MoodLog)
| SaveFailed
| HistoryLoaded (data : list MoodLog).

Definition step (w : World) (ev : Event) : World :=
  match ev with
  | ScriptLoad n => scriptOnload n w
  | ScriptError n => scriptOnerror n w
  | ScriptTimer n => scriptTimeout n w
  | StreamSettled granted => streamSettled granted w
  | VideoMetadata v => videoMetadata v w
  | ModelsResolved => modelsResolved w
  | ModelsRejected => modelsRejected w
  | Tick time rnd => runDetection time rnd w
  | InferenceResolved faces hands rnd =>
      match inFlight w with
      | O => w
      | S _ => inferenceResolved faces hands rnd w
      end
  | InferenceRejected time rnd =>
      match inFlight w with
      | O => w
      | S _ => inferenceRejected time rnd w
      end
  | NotesTyped text => setNotes text w
  | SaveClicked now => handleSaveMood now w
  | SaveSucceeded savedData => saveSucceeded savedData w
  | SaveFailed => w
  | HistoryLoaded data => setHistory data w
  end.

Definition run (evs : list Event) (w : World) : World := fold_left step evs w.

(** The component as first rendered, and after its mount effects have
    called [loadLibraries()]. *)
Definition initial : World :=
  mkWorld EmptyString None EmptyString [] false false false false None None
    EmptyString false None [] Unloaded 0 0 [].

Definition mounted : World := loadLibraries initial.

(** ** Properties named by the specification *)

(** A distribution in the sense of the data model: no negative value, and
    the five values sum to 1 within 1e-6. *)
Definition isDistribution (e : Emotions) : Prop :=
  (forall k, 0 <= get e k) /\ Rabs (total_of e - 1) <= 1 / 1000000.

(** [d] is an argmax of [e], and among the keys of maximal value it is the
    earliest (resp. the latest) in the order of [keys]. *)
Definition argmaxEarliest (e : Emotions) (d : Label) : Prop :=
  (forall k, get e k <= get e d) /\
  (forall k, get e k = get e d -> (key_index d <= key_index k)%nat).

Definition argmaxLatest (e : Emotions) (d : Label) : Prop :=
  (forall k, get e k <= get e d) /\
  (forall k, get e k = get e d -> (key_index k <= key_index d)%nat).

(** Every draw of [Math.random()] lies in [0, 1). *)
Definition unitDraws (rnd : nat -> R) : Prop := forall k, 0 <= rnd k < 1.

(** The object [emotions] as it stands when the noise loop has run, in
    closed form (lemma [tryBlock_closed] proves that this is what the
    [try] block computes before it normalises). *)
Definition noisyScores (rnd : nat -> R) (fm : FaceMetrics) : Emotions :=
  let sadnessScore :=
    calculateSadnessScore (isMouthTurnedDown fm) (mouthCornerDiff fm) (mouthRatio fm) in
  let angerScore :=
    calculateAngerScore (eyebrowLowered fm) (eyebrowsAngledInward fm)
      (leftEyebrowAngle fm) (rightEyebrowAngle fm) in
  let surpriseScore :=
    calculateSurpriseScore (eyebrowRaised fm) (eyesWideOpen fm) (isMouthOpen fm) in
  let happinessScore := calculateHappinessScore (mouthRatio fm) (isMouthTurnedDown fm) in
  let neutralScore :=
    0.4 - (sadnessScore + angerScore + surpriseScore + happinessScore) / 2 in
  mkEmotions
    (Rmax 0 (Rmax 0.05 neutralScore + (rnd 0%nat * 0.05 - 0.025)))
    (Rmax 0 (Rmin 0.7 happinessScore + (rnd 1%nat * 0.05 - 0.025)))
    (Rmax 0 (Rmax 0.1 sadnessScore + (rnd 2%nat * 0.05 - 0.025)))
    (Rmax 0 (Rmax 0.1 angerScore + (rnd 3%nat * 0.05 - 0.025)))
    (Rmax 0 (Rmax 0.1 surpriseScore + (rnd 4%nat * 0.05 - 0.025))).

(** A computation that reads no store and writes none: it returns the
    same value, or throws, from every store, and leaves the store alone. *)
Definition pureM {A} (m : M A) : Prop :=
  exists r : option A,
    forall s, m s = match r with Some a => Ok a s | None => Throw s end.

(** ** Concrete inputs *)

(** Twenty points, all at the origin except index 1 at (3, 0) and index 14
    at (0, 0.5): the mouth corners are the fallback points 0 and 1, the
    lips are the points 13 and 14, so the mouth is 3 wide and 0.5 high. *)
Definition narrowMouth : list Point :=
  [mkPoint 0 0; mkPoint 3 0] ++ repeat (mkPoint 0 0) 12 ++ [mkPoint 0 0.5]
  ++ repeat (mkPoint 0 0) 5.

(** Draws that make a tie: the second call of [Math.random()] returns
    2/3, every other call 0. *)
Definition tieDraws (k : nat) : R :=
  match k with
  | 1%nat => 2 / 3
  | _ => 0
  end.

(** The three scripts load, the camera is granted, the video reports its
    metadata and both models load: the component is then ticking in AI
    mode. *)
Definition armingEvents : list Event :=
  [ScriptLoad 0; ScriptLoad 1; ScriptLoad 2; StreamSettled true;
   VideoMetadata (mkVideo false false 4); ModelsResolved].

Definition armed : World := run armingEvents mounted.

(** Every script element of the page has its [onload] handler. *)
Definition scriptsHaveOnload (w : World) : Prop :=
  Forall (fun sc => onload sc = true) (scripts w).

(** The capture preconditions that open [runDetection]. *)
Definition captureReady (w : World) : Prop :=
  exists v, video w = Some v /\ isVideoReady w = true /\ paused v = false /\
            ended v = false /\ (2 <= readyState v)%Z.

(** A store that holds one log stamped 2000, and a valid body whose
    timestamp denotes the earlier instant 1000. *)
Definition storeWithOne : Db :=
  mkDb [mkMoodLog 0 "happy" 2000 EmptyString None None None 2000] 1.

Definition backdatedBody : Body :=
  mkBody (Some "sad"%string) None None None None (TimeString 1000).

(** Newest first: no later element has a greater timestamp. *)
Definition newestFirst (l : list MoodLog) : Prop :=
  StronglySorted (fun a b => (log_timestamp b <= log_timestamp a)%Z) l.

(** Twenty points at the origin except the left eyebrow (index 11) at
    (0, 30), the bottom of the left eye (index 8) at (0, 20) and the lower
    lip (index 14) at (0, 1): raised eyebrow, wide eye, open mouth. *)
Definition startledFace : list Point :=
  repeat (mkPoint 0 0) 8 ++ [mkPoint 0 20] ++ repeat (mkPoint 0 0) 2
  ++ [mkPoint 0 30] ++ repeat (mkPoint 0 0) 2 ++ [mkPoint 0 1]
  ++ repeat (mkPoint 0 0) 5.

(** The key points whose coordinates the metrics read, as pairs of the
    preferred and the fallback index, in the order of the first read. *)
Definition usedKeyPoints : list (nat * nat) :=
  [(291, 1); (61, 0); (13, 2); (14, 3); (0, 4); (65, 11); (159, 5); (295, 13);
   (386, 6); (105, 12); (334, 14); (159, 7); (145, 8); (386, 9); (374, 10)]%nat.

(** Twenty entries of which the last five (indices 15 to 19) are holes. *)
Definition holedTail : list Entry :=
  repeat (Some (mkPoint 0 0)) 15 ++ repeat None 5.

(** ** Invariants of the component *)

(** The draws carried by an event are draws of [Math.random()]. *)
Definition drawsOk (ev : Event) : Prop :=
  match ev with
  | Tick _ rnd => unitDraws rnd
  | InferenceResolved _ _ rnd => unitDraws rnd
  | InferenceRejected _ rnd => unitDraws rnd
  | _ => True
  end.

(** A mood with its scores: the scores are a distribution and the mood is
    the name of their dominant key. *)
Definition moodOfScores (m : string) (scores : option Emotions) : Prop :=
  exists e, scores = Some e /\ m = label_name (dominantEmotion e) /\ isDistribution e.

(** What is displayed: nothing yet, or a mood with its scores. *)
Definition displayConsistent (w : World) : Prop :=
  (mood w = EmptyString /\ emotionScores w = None) \/
  moodOfScores (mood w) (emotionScores w).

(** Every request posted so far carries a mood with its scores. *)
Definition postedConsistent (w : World) : Prop :=
  Forall (fun d => moodOfScores (md_mood d) (md_emotionScores d)) (posted w).

(** How the loading phase, the script elements, the calls of
    [startVideo] and the model flags go together. *)
Definition loaderInv (w : World) : Prop :=
  faceModel w = handModel w /\
  match phase w with
  | Unloaded => False
  | LoadingScript n =>
      (n <= 2)%nat /\ List.length (scripts w) = S n /\ videoStarts w = 0%nat /\
      faceModel w = false /\ modelsLoaded w = false
  | StartingVideo | LoadingModels =>
      List.length (scripts w) = 3%nat /\ videoStarts w = 1%nat /\
      faceModel w = false /\ modelsLoaded w = false
  | Loaded =>
      List.length (scripts w) = 3%nat /\ videoStarts w = 1%nat /\
      faceModel w = true /\ modelsLoaded w = true
  | Failed =>
      (List.length (scripts w) <= 3)%nat /\ (1 <= videoStarts w <= 2)%nat /\
      faceModel w = false /\ modelsLoaded w = true
  end.

(** The busy flag against the inferences in flight. *)
Definition busyInv (w : World) : Prop :=
  (isDetecting w = true -> (1 <= inFlight w)%nat) /\
  (faceModel w = false -> inFlight w = 0%nat /\ isDetecting w = false).

(** ** The backend over a sequence of requests *)



(** A history answer holds at most 20 records. *)
Definition historyFits (ev : Event) : Prop :=
  match ev with
  | HistoryLoaded data => (List.length data <= 20)%nat
  | _ => True
  end.

(** ** The three bars under the current emotion *)

(** [Object.entries(emotionScores)] *)
Definition entries (e : Emotions) : list (Label * R) :=
  map (fun k => (k, get e k)) keys.

(** [.sort(([, a], [, b]) => b - a)]: an entry goes before another when
    its score is strictly greater; the sort is stable, so entries of equal
    score keep their order.  As an insertion sort: an entry goes behind
    every entry whose score is not smaller than its own. *)
Fixpoint insertByScore (x : Label * R) (l : list (Label * R)) : list (Label * R) :=
  match l with
  | [] => [x]
  | y :: ys => if snd x >? snd y then x :: y :: ys else y :: insertByScore x ys
  end.

Definition sortByScore (l : list (Label * R)) : list (Label * R) :=
  fold_left (fun acc x => insertByScore x acc) l [].

(** What is rendered under the mood: nothing while [emotionScores] is the
    empty object, else [Object.entries(...).sort(...).slice(0, 3)]. *)
Definition topThree (scores : option Emotions) : list (Label * R) :=
  match scores with
  | None => []
  | Some e => firstn 3 (sortByScore (entries e))
  end.

Definition byScore (l : list (Label * R)) : Prop :=
  StronglySorted (fun a b => snd b <= snd a) l.

(** * Proofs *)

(** ** Comparisons *)

Lemma Rgtb_true a b : (a >? b) = true <-> a > b.
Proof. unfold Rgtb; destruct (Rgt_dec a b); split; intros; try discriminate; tauto. Qed.

Lemma Rgtb_false a b : (a >? b) = false <-> a <= b.
Proof.
  unfold Rgtb; destruct (Rgt_dec a b); split; intros; try discriminate; try lra; auto.
Qed.

Lemma Rltb_true a b : (a <? b) = true <-> a < b.
Proof. unfold Rltb; destruct (Rlt_dec a b); split; intros; try discriminate; tauto. Qed.

Lemma Rltb_false a b : (a <? b) = false <-> b <= a.
Proof.
  unfold Rltb; destruct (Rlt_dec a b); split; intros; try discriminate; try lra; auto.
Qed.

Lemma Reqb_true a b : Reqb a b = true <-> a = b.
Proof. unfold Reqb; destruct (Req_dec_T a b); split; intros; try discriminate; tauto. Qed.

Lemma Reqb_false a b : Reqb a b = false <-> a <> b.
Proof. unfold Reqb; destruct (Req_dec_T a b); split; intros; try discriminate; tauto. Qed.

(** Decide the comparisons of a goal one after the other, innermost
    first, keeping the branches that linear arithmetic does not refute. *)
Ltac no_cmp t :=
  lazymatch t with
  | context [Rgtb _ _] => fail
  | context [Rltb _ _] => fail
  | context [Reqb _ _] => fail
  | _ => idtac
  end.

Ltac rcases :=
  repeat match goal with
  | |- context [Rgtb ?a ?b] =>
      no_cmp a; no_cmp b;
      let H := fresh "C" in
      destruct (Rgtb a b) eqn:H;
      [apply Rgtb_true in H | apply Rgtb_false in H];
      cbv beta iota; try (exfalso; simpl in *; lra)
  | |- context [Rltb ?a ?b] =>
      no_cmp a; no_cmp b;
      let H := fresh "C" in
      destruct (Rltb a b) eqn:H;
      [apply Rltb_true in H | apply Rltb_false in H];
      cbv beta iota; try (exfalso; simpl in *; lra)
  | |- context [Reqb ?a ?b] =>
      no_cmp a; no_cmp b;
      let H := fresh "C" in
      destruct (Reqb a b) eqn:H;
      [apply Reqb_true in H | apply Reqb_false in H];
      cbv beta iota; try (exfalso; simpl in *; lra)
  end.

(** ** The heuristics on the scenarios of the specification *)

Ltac rminmax :=
  repeat match goal with
  | |- context [Rmin ?a ?b] =>
      unfold Rmin at 1; destruct (Rle_dec a b); try (exfalso; lra)
  | |- context [Rmax ?a ?b] =>
      unfold Rmax at 1; destruct (Rle_dec a b); try (exfalso; lra)
  end.

(** Scenario A: a mouth ratio of 3.2 with the mouth not turned down scores
    0.8 for happiness. *)
Example scenarioA_happiness : calculateHappinessScore 3.2 false = 0.8.
Proof. unfold calculateHappinessScore. cbv zeta. rcases. rminmax. lra. Qed.

(** Scenario B: raised eyebrows, wide eyes and an open mouth score 0.9 for
    surprise. *)
Example scenarioB_surprise : calculateSurpriseScore true true true = 0.9.
Proof. unfold calculateSurpriseScore. cbv zeta. rminmax. lra. Qed.

(** ** The emotion object *)

Lemma total_of_sum e :
  total_of e = e_neutral e + e_happy e + e_sad e + e_angry e + e_surprised e.
Proof. unfold total_of, values; simpl; lra. Qed.

Lemma normalize_fields e :
  normalize e =
  mkEmotions (e_neutral e / total_of e) (e_happy e / total_of e)
    (e_sad e / total_of e) (e_angry e / total_of e) (e_surprised e / total_of e).
Proof. reflexivity. Qed.

Lemma normalize_total e : 0 < total_of e -> total_of (normalize e) = 1.
Proof.
  intros Hpos. rewrite normalize_fields, (total_of_sum (mkEmotions _ _ _ _ _)); simpl.
  pose proof (total_of_sum e) as Hs.
  replace (e_neutral e / total_of e + e_happy e / total_of e + e_sad e / total_of e
           + e_angry e / total_of e + e_surprised e / total_of e)
    with (total_of e / total_of e) by (rewrite Hs at 1; field; lra).
  field; lra.
Qed.

Lemma normalize_nonneg e :
  (forall k, 0 <= get e k) -> 0 < total_of e -> forall k, 0 <= get (normalize e) k.
Proof.
  intros Hk Hpos k. rewrite normalize_fields.
  pose proof (Hk k) as Hv.
  destruct k; simpl in *; apply Rmult_le_pos; try assumption;
    left; apply Rinv_0_lt_compat; assumption.
Qed.

Lemma normalize_isDistribution e :
  (forall k, 0 <= get e k) -> 0 < total_of e -> isDistribution (normalize e).
Proof.
  intros Hk Hpos; split.
  - now apply normalize_nonneg.
  - rewrite normalize_total by assumption.
    replace (1 - 1) with 0 by lra. rewrite Rabs_R0. lra.
Qed.

Lemma defaultEmotions_isDistribution : isDistribution defaultEmotions.
Proof.
  split.
  - intros k; destruct k; simpl; lra.
  - rewrite total_of_sum; simpl.
    replace (0.17 + 0.50 + 0.10 + 0.08 + 0.15 - 1) with 0 by lra.
    rewrite Rabs_R0; lra.
Qed.

(** ** The monad *)

Lemma pureM_ret {A} (a : A) : pureM (ret a).
Proof. exists (Some a); reflexivity. Qed.

Lemma pureM_coord0 p : pureM (coord0 p).
Proof. destruct p as [q|]; [exists (Some (px q)) | exists None]; reflexivity. Qed.

Lemma pureM_coord1 p : pureM (coord1 p).
Proof. destruct p as [q|]; [exists (Some (py q)) | exists None]; reflexivity. Qed.

Lemma pureM_bind {A B} (m : M A) (f : A -> M B) :
  pureM m -> (forall a, pureM (f a)) -> pureM (bind m f).
Proof.
  intros [r Hr] Hf. destruct r as [a|].
  - destruct (Hf a) as [rb Hb]. exists rb. intros s. unfold bind. rewrite Hr. apply Hb.
  - exists None. intros s. unfold bind. now rewrite Hr.
Qed.

(** The metrics read the landmarks only: an error in them leaves
    [emotions] as it was on entry. *)
Lemma pureM_faceMetrics l : pureM (faceMetrics l).
Proof.
  unfold faceMetrics; cbv zeta.
  repeat (apply pureM_bind; [first [apply pureM_coord0 | apply pureM_coord1] | intro]).
  apply pureM_ret.
Qed.

(** Once the metrics are there, nothing in the rest of the block throws,
    and the result is the normalised [noisyScores]. *)
Lemma tryBlock_closed rnd l fm e0 :
  faceMetrics l (mkStore e0 0) = Ok fm (mkStore e0 0) ->
  tryBlock rnd l (mkStore e0 0) =
  Ok (normalize (noisyScores rnd fm)) (mkStore (normalize (noisyScores rnd fm)) 5).
Proof.
  intros H. unfold tryBlock. unfold bind at 1. rewrite H.
  cbv [assignScores addNoise modifyE currentE bind writeE readE random forEach keys ret
       emotions calls get set e_neutral e_happy e_sad e_angry e_surprised noisyScores].
  reflexivity.
Qed.

Lemma tryBlock_throws rnd l e0 :
  faceMetrics l (mkStore e0 0) = Throw (mkStore e0 0) ->
  tryBlock rnd l (mkStore e0 0) = Throw (mkStore e0 0).
Proof. intros H. unfold tryBlock. unfold bind at 1. now rewrite H. Qed.

(** The two ways in which [calculateEmotionsFromLandmarks] ends on an
    array of at least 20 entries. *)
Lemma calculate_cases rnd l :
  (20 <= List.length l)%nat ->
  (tryBlock rnd l (mkStore defaultEmotions 0) = Throw (mkStore defaultEmotions 0) /\
   calculateEmotionsFromLandmarks rnd (Some l) = defaultEmotions) \/
  (exists fm, faceMetrics l (mkStore defaultEmotions 0) = Ok fm (mkStore defaultEmotions 0) /\
     calculateEmotionsFromLandmarks rnd (Some l) = normalize (noisyScores rnd fm)).
Proof.
  intros Hlen. unfold calculateEmotionsFromLandmarks.
  replace (List.length l <? 20)%nat with false
    by (symmetry; apply Nat.ltb_ge; exact Hlen).
  destruct (pureM_faceMetrics l) as [[fm|] Hr].
  - right. exists fm. split; [apply Hr|].
    now rewrite (tryBlock_closed rnd l fm defaultEmotions (Hr _)).
  - left. rewrite (tryBlock_throws rnd l defaultEmotions (Hr _)). split; reflexivity.
Qed.

(** ** The scores *)

Lemma noisyScores_nonneg rnd fm k : 0 <= get (noisyScores rnd fm) k.
Proof. destruct k; simpl; apply Rmax_l. Qed.

Lemma noisyScores_total_pos rnd fm : unitDraws rnd -> 0 < total_of (noisyScores rnd fm).
Proof.
  intros Hr. rewrite total_of_sum.
  pose proof (noisyScores_nonneg rnd fm neutral) as Hn.
  pose proof (noisyScores_nonneg rnd fm happy) as Hh.
  pose proof (noisyScores_nonneg rnd fm angry) as Ha.
  pose proof (noisyScores_nonneg rnd fm surprised) as Hs.
  assert (Hsad : 0.075 <= get (noisyScores rnd fm) sad).
  { simpl. destruct (Hr 2%nat) as [H0 _].
    eapply Rle_trans; [|apply Rmax_r].
    pose proof (Rmax_l 0.1
      (calculateSadnessScore (isMouthTurnedDown fm) (mouthCornerDiff fm) (mouthRatio fm))).
    lra. }
  simpl in *. lra.
Qed.

(** C1.  For every array of at least 20 landmarks and every sequence of
    draws of [Math.random()] in [0, 1), the object returned by
    [calculateEmotionsFromLandmarks] has no negative value and its five
    values sum to 1 within 1e-6 (in exact arithmetic they sum to 1). *)
Theorem calculateEmotions_isDistribution (rnd : nat -> R) (l : list Entry) :
  (20 <= List.length l)%nat ->
  unitDraws rnd ->
  isDistribution (calculateEmotionsFromLandmarks rnd (Some l)).
Proof.
  intros Hlen Hr.
  destruct (calculate_cases rnd l Hlen) as [[_ ->] | [fm [_ ->]]].
  - apply defaultEmotions_isDistribution.
  - apply normalize_isDistribution.
    + apply noisyScores_nonneg.
    + now apply noisyScores_total_pos.
Qed.

(** C9.  An error raised anywhere in the [try] block is caught: the store
    still holds the default object at that point, and that object is what
    [calculateEmotionsFromLandmarks] returns. *)
Theorem calculateEmotions_catches (rnd : nat -> R) (l : list Entry) (s : Store) :
  tryBlock rnd l (mkStore defaultEmotions 0) = Throw s ->
  emotions s = mkEmotions 0.17 0.50 0.10 0.08 0.15 /\
  calculateEmotionsFromLandmarks rnd (Some l) = mkEmotions 0.17 0.50 0.10 0.08 0.15.
Proof.
  intros Hthrow. fold defaultEmotions.
  assert (Hs : s = mkStore defaultEmotions 0).
  { destruct (pureM_faceMetrics l) as [[fm|] Hr].
    - rewrite (tryBlock_closed rnd l fm defaultEmotions (Hr _)) in Hthrow. discriminate.
    - rewrite (tryBlock_throws rnd l defaultEmotions (Hr _)) in Hthrow. congruence. }
  subst s. split; [reflexivity|].
  unfold calculateEmotionsFromLandmarks.
  destruct (List.length l <? 20)%nat; [reflexivity|].
  now rewrite Hthrow.
Qed.

Lemma calculateEmotions_isDistribution_witness :
  isDistribution
    (calculateEmotionsFromLandmarks (fun _ => 0) (Some (repeat (Some (mkPoint 0 0)) 20))).
Proof.
  apply calculateEmotions_isDistribution.
  - simpl; lia.
  - intros k; lra.
Defined.

Lemma calculateEmotions_catches_witness :
  emotions (mkStore defaultEmotions 0) = mkEmotions 0.17 0.50 0.10 0.08 0.15 /\
  calculateEmotionsFromLandmarks (fun _ => 0) (Some (repeat None 20)) =
  mkEmotions 0.17 0.50 0.10 0.08 0.15.
Proof.
  apply (calculateEmotions_catches (fun _ => 0) (repeat None 20) (mkStore defaultEmotions 0)).
  reflexivity.
Defined.

(** ** Key points *)

Lemma at_index_points pts i :
  at_index (map Some pts) i = nth_error pts i.
Proof.
  unfold at_index. rewrite nth_error_map. now destruct (nth_error pts i).
Qed.

(** On an array of points the fallback index is used exactly when the
    preferred index is out of range. *)
Lemma at_index_or_points pts i j d :
  (j < List.length pts)%nat ->
  at_index_or (map Some pts) i j =
  Some (nth (if (i <? List.length pts)%nat then i else j) pts d).
Proof.
  intros Hj. unfold at_index_or. rewrite !at_index_points.
  destruct (i <? List.length pts)%nat eqn:Hi.
  - apply Nat.ltb_lt in Hi. now rewrite (nth_error_nth' pts d Hi).
  - apply Nat.ltb_ge in Hi. apply nth_error_None in Hi. rewrite Hi.
    now rewrite (nth_error_nth' pts d Hj).
Qed.

Lemma faceMetrics_points pts s :
  (20 <= List.length pts)%nat ->
  exists fm, faceMetrics (map Some pts) s = Ok fm s.
Proof.
  intros Hlen. unfold faceMetrics; cbv zeta.
  rewrite !(at_index_or_points pts _ _ (mkPoint 0 0)) by lia.
  cbv [coord0 coord1 bind ret]. eexists; reflexivity.
Qed.

(** C4.  A missing array or one of fewer than 20 entries gives the
    default object itself, untouched; on an array of at least 20 points
    every key point is found (the preferred index when the array has it,
    the low fallback index otherwise) and the metrics are computed without
    an error. *)
Theorem short_default_long_complete (rnd : nat -> R) (landmarks : Landmarks)
    (pts : list Point) (s : Store) :
  (match landmarks with
   | None => True
   | Some l => (List.length l < 20)%nat
   end ->
   calculateEmotionsFromLandmarks rnd landmarks = mkEmotions 0.17 0.50 0.10 0.08 0.15) /\
  ((20 <= List.length pts)%nat ->
   (forall i j, (j < 20)%nat ->
      at_index_or (map Some pts) i j =
      Some (nth (if (i <? List.length pts)%nat then i else j) pts (mkPoint 0 0))) /\
   exists fm, faceMetrics (map Some pts) s = Ok fm s).
Proof.
  split.
  - destruct landmarks as [l|]; intros H; [|reflexivity].
    unfold calculateEmotionsFromLandmarks.
    apply Nat.ltb_lt in H. now rewrite H.
  - intros Hlen. split.
    + intros i j Hj. apply at_index_or_points. lia.
    + now apply faceMetrics_points.
Qed.

Lemma short_default_long_complete_witness :
  calculateEmotionsFromLandmarks (fun _ => 0) (Some [Some (mkPoint 1 2)]) =
    mkEmotions 0.17 0.50 0.10 0.08 0.15 /\
  at_index_or (map Some (repeat (mkPoint 1 2) 20)) 61 0 = Some (mkPoint 1 2) /\
  exists fm,
    faceMetrics (map Some (repeat (mkPoint 1 2) 20)) (mkStore defaultEmotions 0) =
    Ok fm (mkStore defaultEmotions 0).
Proof.
  destruct (short_default_long_complete (fun _ => 0) (Some [Some (mkPoint 1 2)])
              (repeat (mkPoint 1 2) 20) (mkStore defaultEmotions 0)) as [Hshort Hlong].
  split.
  - apply Hshort. simpl; lia.
  - destruct Hlong as [Hkey Hfm]; [simpl; lia|].
    split; [|exact Hfm].
    rewrite (Hkey 61%nat 0%nat) by lia. reflexivity.
Defined.

(** ** The mouth ratio *)

Lemma sqrt_of_square x a : 0 <= a -> x = a * a -> sqrt x = a.
Proof. intros Ha ->. now apply sqrt_square. Qed.

(** C5 as stated fails: on [narrowMouth] the mouth is 3 wide and 0.5
    high, the code divides by 0.5 and finds 6, while
    [mouthWidth / max(mouthHeight, 1)] is 3. *)
Lemma mouthRatio_not_max_counterexample :
  exists fm,
    faceMetrics (map Some narrowMouth) (mkStore defaultEmotions 0) =
      Ok fm (mkStore defaultEmotions 0) /\
    mouthWidth fm = 3 /\ mouthHeight fm = 0.5 /\ mouthRatio fm = 6 /\
    mouthRatio fm <> mouthWidth fm / Rmax (mouthHeight fm) 1.
Proof.
  eexists. split.
  - unfold faceMetrics; cbv zeta.
    cbv [narrowMouth at_index_or at_index nth_error map repeat app].
    cbv [coord0 coord1 px py bind ret]. reflexivity.
  - cbv [mouthWidth mouthHeight mouthRatio].
    assert (Hw : sqrt ((3 - 0) ^ 2 + (0 - 0) ^ 2) = 3)
      by (apply sqrt_of_square; lra).
    assert (Hh : sqrt ((0 - 0) ^ 2 + (0 - 0.5) ^ 2) = 0.5)
      by (apply sqrt_of_square; lra).
    rewrite Hw, Hh. unfold num_or. rcases.
    unfold Rmax. destruct (Rle_dec 0.5 1); [|lra].
    repeat split; lra.
Qed.

(** Inversion of a successful coordinate read. *)
Ltac need_point i j :=
  match goal with
  | |- context [at_index_or ?l i j] =>
      let p := fresh "p" in
      let E := fresh "E" in
      destruct (at_index_or l i j) as [p|] eqn:E;
      [ | cbv [coord0 coord1 bind ret throw]; discriminate ]
  end.

(** C5, amended.  Whenever the metrics are computed, the mouth width and
    height are the Euclidean distances between the two corner points and
    between the two lip points, and the ratio is the width divided by the
    height, or by 1 when the height is 0; this is
    [mouthWidth / max(mouthHeight, 1)] when the height is 0 or at least 1. *)
Theorem mouthRatio_or_one (l : list Entry) (s s' : Store) (fm : FaceMetrics) :
  faceMetrics l s = Ok fm s' ->
  exists mouthLeft mouthRight upperLip lowerLip,
    at_index_or l 61 0 = Some mouthLeft /\
    at_index_or l 291 1 = Some mouthRight /\
    at_index_or l 13 2 = Some upperLip /\
    at_index_or l 14 3 = Some lowerLip /\
    mouthWidth fm =
      sqrt ((px mouthRight - px mouthLeft) ^ 2 + (py mouthRight - py mouthLeft) ^ 2) /\
    mouthHeight fm =
      sqrt ((px upperLip - px lowerLip) ^ 2 + (py upperLip - py lowerLip) ^ 2) /\
    (mouthHeight fm <> 0 -> mouthRatio fm = mouthWidth fm / mouthHeight fm) /\
    (mouthHeight fm = 0 -> mouthRatio fm = mouthWidth fm / 1) /\
    (mouthHeight fm = 0 \/ 1 <= mouthHeight fm ->
     mouthRatio fm = mouthWidth fm / Rmax (mouthHeight fm) 1).
Proof.
  unfold faceMetrics; cbv zeta.
  need_point 291%nat 1%nat. need_point 61%nat 0%nat.
  need_point 13%nat 2%nat. need_point 14%nat 3%nat.
  need_point 0%nat 4%nat.
  need_point 65%nat 11%nat. need_point 159%nat 5%nat.
  need_point 295%nat 13%nat. need_point 386%nat 6%nat.
  need_point 105%nat 12%nat. need_point 334%nat 14%nat.
  need_point 159%nat 7%nat. need_point 145%nat 8%nat.
  need_point 386%nat 9%nat. need_point 374%nat 10%nat.
  cbv [coord0 coord1 bind ret]. intros H. injection H as Hfm _. subst fm.
  cbv [mouthWidth mouthHeight mouthRatio].
  exists p0, p, p1, p2.
  repeat split; try reflexivity.
  - intros Hne. unfold num_or. rcases. reflexivity.
  - intros Hz. unfold num_or. rcases. reflexivity.
  - intros [Hz | Hge]; unfold num_or, Rmax.
    + rcases. destruct (Rle_dec _ 1); [reflexivity | lra].
    + rcases. destruct (Rle_dec _ 1); [|reflexivity].
      unfold Rdiv. f_equal. f_equal. lra.
Qed.

Lemma mouthRatio_or_one_witness :
  exists fm,
    faceMetrics (map Some narrowMouth) (mkStore defaultEmotions 0) =
      Ok fm (mkStore defaultEmotions 0) /\
    exists mouthLeft mouthRight upperLip lowerLip,
      at_index_or (map Some narrowMouth) 61 0 = Some mouthLeft /\
      at_index_or (map Some narrowMouth) 291 1 = Some mouthRight /\
      at_index_or (map Some narrowMouth) 13 2 = Some upperLip /\
      at_index_or (map Some narrowMouth) 14 3 = Some lowerLip /\
      mouthWidth fm =
        sqrt ((px mouthRight - px mouthLeft) ^ 2 + (py mouthRight - py mouthLeft) ^ 2) /\
      mouthHeight fm =
        sqrt ((px upperLip - px lowerLip) ^ 2 + (py upperLip - py lowerLip) ^ 2) /\
      (mouthHeight fm <> 0 -> mouthRatio fm = mouthWidth fm / mouthHeight fm) /\
      (mouthHeight fm = 0 -> mouthRatio fm = mouthWidth fm / 1) /\
      (mouthHeight fm = 0 \/ 1 <= mouthHeight fm ->
       mouthRatio fm = mouthWidth fm / Rmax (mouthHeight fm) 1).
Proof.
  eexists. split.
  - unfold faceMetrics; cbv zeta.
    cbv [narrowMouth at_index_or at_index nth_error map repeat app].
    cbv [coord0 coord1 px py bind ret]. reflexivity.
  - apply (mouthRatio_or_one (map Some narrowMouth)
             (mkStore defaultEmotions 0) (mkStore defaultEmotions 0)).
    unfold faceMetrics; cbv zeta.
    cbv [narrowMouth at_index_or at_index nth_error map repeat app].
    cbv [coord0 coord1 px py bind ret]. reflexivity.
Defined.

(** ** The dominant mood *)

Lemma dominantEmotion_latest e : argmaxLatest e (dominantEmotion e).
Proof.
  unfold argmaxLatest, dominantEmotion. simpl.
  rcases; split; intros k; destruct k; simpl in *; intros;
    try lia; try lra; exfalso; lra.
Qed.

Lemma tie_distribution :
  getRandomEmotions tieDraws (cyclePositionAt 21000) =
  mkEmotions (3 / 8) (3 / 8) (1 / 8) (1 / 16) (1 / 16).
Proof.
  unfold getRandomEmotions, drawProfile, cyclePositionAt.
  change (Z.rem 21000 30000) with 21000%Z.
  rcases. rewrite normalize_fields, total_of_sum. simpl.
  f_equal; lra.
Qed.

(** C3 as stated fails: at time 21000 with the draws [tieDraws] the
    simulator gives neutral = happy = 3/8, the largest value; the tick sets
    the mood to "happy", the later of the two keys, not to "neutral". *)
Lemma dominant_tie_counterexample :
  let w := handleFallbackDetection 21000 tieDraws mounted in
  let e := getRandomEmotions tieDraws (cyclePositionAt 21000) in
  emotionScores w = Some e /\
  mood w = "happy"%string /\
  get e neutral = get e happy /\
  (forall k, get e k <= get e neutral) /\
  ~ argmaxEarliest e (dominantEmotion e).
Proof.
  assert (Hd : dominantEmotion (getRandomEmotions tieDraws (cyclePositionAt 21000)) = happy).
  { rewrite tie_distribution. unfold dominantEmotion. simpl. rcases. reflexivity. }
  cbv zeta. split; [reflexivity|]. split.
  - unfold handleFallbackDetection. cbv zeta. simpl. now rewrite Hd.
  - rewrite Hd, tie_distribution. split; [reflexivity|]. split.
    + intros k; destruct k; simpl; lra.
    + intros [_ Hfirst]. specialize (Hfirst neutral). simpl in Hfirst.
      specialize (Hfirst eq_refl). lia.
Qed.

(** C3, amended.  The reduction returns a key of maximal value, and among
    the keys of maximal value the latest in the order neutral, happy, sad,
    angry, surprised; the mood set by a simulated cycle and by an AI cycle
    that found a face is the name of that key for the scores the cycle
    stored. *)
Theorem detected_mood_is_latest_argmax :
  (forall e, argmaxLatest e (dominantEmotion e)) /\
  (forall time rnd w,
     exists e, emotionScores (handleFallbackDetection time rnd w) = Some e /\
               mood (handleFallbackDetection time rnd w) = label_name (dominantEmotion e)) /\
  (forall firstFace faces hands rnd w,
     exists e, emotionScores (inferenceResolved (firstFace :: faces) hands rnd w) = Some e /\
               mood (inferenceResolved (firstFace :: faces) hands rnd w)
               = label_name (dominantEmotion e)).
Proof.
  split; [exact dominantEmotion_latest|]. split.
  - intros time rnd w. eexists. split; reflexivity.
  - intros firstFace faces hands rnd w. eexists.
    destruct hands; split; reflexivity.
Qed.

(** ** The simulator *)

Lemma drawProfile_total_pos rnd c : unitDraws rnd -> 0 < total_of (drawProfile rnd c).
Proof.
  intros Hr. rewrite total_of_sum. unfold drawProfile.
  pose proof (Hr 0%nat). pose proof (Hr 1%nat). pose proof (Hr 2%nat).
  pose proof (Hr 3%nat). pose proof (Hr 4%nat).
  rcases; simpl; lra.
Qed.

Lemma drawProfile_nonneg rnd c : unitDraws rnd -> forall k, 0 <= get (drawProfile rnd c) k.
Proof.
  intros Hr k. unfold drawProfile.
  pose proof (Hr 0%nat). pose proof (Hr 1%nat). pose proof (Hr 2%nat).
  pose proof (Hr 3%nat). pose proof (Hr 4%nat).
  rcases; destruct k; simpl; lra.
Qed.

(** C7.  The simulated cycle stores [getRandomEmotions] at the cycle
    position [(time rem 30000) / 30000], which lies in [0, 1) for a time
    that is not negative; before normalisation each value is
    an affine image of its own draw and lies in the range of the profile
    chosen by the position (happy-biased below 0.3, neutral-biased below
    0.6, mixed from 0.6 on); the stored values are the profile divided by
    its total, are not negative and sum to 1. *)
Theorem simulator_profiles (time : Z) (rnd : nat -> R) (w : World) :
  unitDraws rnd ->
  let c := cyclePositionAt time in
  let p := drawProfile rnd c in
  let e := getRandomEmotions rnd c in
  c = IZR (Z.rem time 30000) / 30000 /\
  ((0 <= time)%Z -> 0 <= c < 1) /\
  emotionScores (handleFallbackDetection time rnd w) = Some e /\
  (0 <= c < 0.3 ->
     p = mkEmotions (0.3 + rnd 0%nat * 0.2) (0.4 + rnd 1%nat * 0.3) (rnd 2%nat * 0.2)
           (rnd 3%nat * 0.1) (rnd 4%nat * 0.1) /\
     0.3 <= get p neutral < 0.5 /\ 0.4 <= get p happy < 0.7 /\
     0 <= get p sad < 0.2 /\ 0 <= get p angry < 0.1 /\ 0 <= get p surprised < 0.1) /\
  (0.3 <= c < 0.6 ->
     p = mkEmotions (0.6 + rnd 0%nat * 0.2) (0.1 + rnd 1%nat * 0.2) (0.1 + rnd 2%nat * 0.1)
           (rnd 3%nat * 0.1) (rnd 4%nat * 0.1) /\
     0.6 <= get p neutral < 0.8 /\ 0.1 <= get p happy < 0.3 /\
     0.1 <= get p sad < 0.2 /\ 0 <= get p angry < 0.1 /\ 0 <= get p surprised < 0.1) /\
  (0.6 <= c < 1 ->
     p = mkEmotions (0.3 + rnd 0%nat * 0.3) (0.1 + rnd 1%nat * 0.3) (0.1 + rnd 2%nat * 0.3)
           (0.05 + rnd 3%nat * 0.15) (0.05 + rnd 4%nat * 0.15) /\
     0.3 <= get p neutral < 0.6 /\ 0.1 <= get p happy < 0.4 /\
     0.1 <= get p sad < 0.4 /\ 0.05 <= get p angry < 0.2 /\
     0.05 <= get p surprised < 0.2) /\
  (forall k, get e k = get p k / total_of p) /\
  (forall k, 0 <= get e k) /\
  total_of e = 1.
Proof.
  intros Hr c p e.
  pose proof (Hr 0%nat). pose proof (Hr 1%nat). pose proof (Hr 2%nat).
  pose proof (Hr 3%nat). pose proof (Hr 4%nat).
  split; [reflexivity|]. split.
  { intros Ht. subst c. unfold cyclePositionAt.
    destruct (Z.rem_bound_pos time 30000 Ht) as [Hlo Hhi]; [lia|].
    apply IZR_le in Hlo. apply IZR_lt in Hhi. lra. }
  split; [reflexivity|].
  split; [|split; [|split]].
  - intros Hc. subst p. unfold drawProfile. rcases. simpl. repeat split; lra.
  - intros Hc. subst p. unfold drawProfile. rcases. simpl. repeat split; lra.
  - intros Hc. subst p. unfold drawProfile. rcases. simpl. repeat split; lra.
  - split; [|split].
    + intros k. subst e p. unfold getRandomEmotions. cbv zeta.
      rewrite normalize_fields. destruct k; reflexivity.
    + apply normalize_nonneg.
      * now apply drawProfile_nonneg.
      * now apply drawProfile_total_pos.
    + apply normalize_total. now apply drawProfile_total_pos.
Qed.

Lemma simulator_profiles_witness :
  let c := cyclePositionAt 21000 in
  let e := getRandomEmotions (fun _ => 0) c in
  emotionScores (handleFallbackDetection 21000 (fun _ => 0) mounted) = Some e /\
  (forall k, 0 <= get e k) /\ total_of e = 1.
Proof.
  assert (Hr : unitDraws (fun _ => 0)) by (intros k; lra).
  destruct (simulator_profiles 21000 (fun _ => 0) mounted Hr)
    as (_ & _ & Hs & _ & _ & _ & _ & Hpos & Hsum).
  cbv zeta. repeat split; assumption.
Defined.

(** ** The detection tick and the busy flag *)

Lemma armed_ready : captureReady armed.
Proof.
  exists (mkVideo false false 4). repeat split; try reflexivity. simpl; lia.
Qed.

(** C2 as stated fails: from the armed component, a first tick starts an
    inference and sets [isDetecting]; a second tick, 50 ms later and before
    the inference has settled, is not skipped: it starts a second
    inference, and two cycles are in flight. *)
Lemma overlapping_cycles_counterexample :
  let w1 := step armed (Tick 0 (fun _ => 0)) in
  let w2 := step w1 (Tick 50 (fun _ => 0)) in
  isDetecting w1 = true /\ inFlight w1 = 1%nat /\
  w2 <> w1 /\ inFlight w2 = 2%nat.
Proof.
  cbv zeta. repeat split; try reflexivity.
  intros H. apply (f_equal inFlight) in H. discriminate H.
Qed.

Lemma runDetection_ready time rnd w :
  captureReady w ->
  runDetection time rnd w =
  if faceModel w && handModel w
  then setInFlight (S (inFlight w)) (setIsDetecting true w)
  else handleFallbackDetection time rnd (setIsDetecting true w).
Proof.
  intros (v & Hv & Hr & Hp & He & Hs). unfold runDetection.
  rewrite Hv, Hr, Hp, He. apply Z.ltb_ge in Hs. rewrite Hs. reflexivity.
Qed.

(** C2, amended.  A tick whose capture preconditions hold starts a cycle
    whatever the value of [isDetecting], which it does not read: in AI mode
    it sets the flag and adds one inference to those in flight, so cycles
    overlap when ticks outpace the inferences; in basic mode the cycle
    runs to its end within the tick, which leaves the flag cleared and the
    number of inferences in flight as it was. *)
Theorem tick_ignores_busy_flag (time : Z) (rnd : nat -> R) (w : World) :
  captureReady w ->
  runDetection time rnd (setIsDetecting true w) =
    runDetection time rnd (setIsDetecting false w) /\
  (faceModel w && handModel w = true ->
     inFlight (runDetection time rnd w) = S (inFlight w) /\
     isDetecting (runDetection time rnd w) = true) /\
  (faceModel w && handModel w = false ->
     inFlight (runDetection time rnd w) = inFlight w /\
     isDetecting (runDetection time rnd w) = false).
Proof.
  intros Hready. split; [|split].
  - rewrite !runDetection_ready.
    + simpl. destruct (faceModel w && handModel w); reflexivity.
    + destruct Hready as (v & H); exists v; exact H.
    + destruct Hready as (v & H); exists v; exact H.
  - intros Hai. rewrite (runDetection_ready _ _ _ Hready), Hai. split; reflexivity.
  - intros Hai. rewrite (runDetection_ready _ _ _ Hready), Hai. split; reflexivity.
Qed.

Lemma tick_ignores_busy_flag_witness :
  let w := step armed (Tick 0 (fun _ => 0)) in
  isDetecting w = true /\
  inFlight (runDetection 50 (fun _ => 0) w) = S (inFlight w) /\
  isDetecting (runDetection 50 (fun _ => 0) w) = true.
Proof.
  cbv zeta. split; [reflexivity|].
  assert (Hready : captureReady (step armed (Tick 0 (fun _ => 0)))).
  { exists (mkVideo false false 4). repeat split; try reflexivity. simpl; lia. }
  destruct (tick_ignores_busy_flag 50 (fun _ => 0) _ Hready) as (_ & Hai & _).
  apply Hai. reflexivity.
Defined.

(** ** Saving *)

(** C10.  With no mood detected, [handleSaveMood] returns at once: the
    whole state is as before; in particular no request is posted and the
    history and the notes are unchanged. *)
Theorem handleSaveMood_without_mood (now : Z) (w : World) :
  mood w = EmptyString ->
  handleSaveMood now w = w /\
  posted (handleSaveMood now w) = posted w /\
  history (handleSaveMood now w) = history w /\
  notes (handleSaveMood now w) = notes w.
Proof.
  intros Hm. unfold handleSaveMood. rewrite Hm. simpl. repeat split.
Qed.

(** With a mood, one request is posted, and the backend accepts its body. *)
Lemma handleSaveMood_posts_valid now w serverNow db :
  mood w <> EmptyString ->
  exists d,
    posted (handleSaveMood now w) = posted w ++ [d] /\
    md_mood d = mood w /\ md_timestamp d = now /\
    status (fst (route serverNow (PostLog (bodyOf d)) db)) = 200%nat.
Proof.
  intros Hm. unfold handleSaveMood.
  destruct (String.eqb (mood w) EmptyString) eqn:E.
  - apply String.eqb_eq in E. contradiction.
  - eexists. split; [reflexivity|]. split; [reflexivity|]. split; [reflexivity|].
    unfold route, addMoodLog, saveMoodLog, bodyOf. simpl. now rewrite E.
Qed.

Lemma handleSaveMood_without_mood_witness :
  handleSaveMood 1000 (setNotes "a quiet day" armed) = setNotes "a quiet day" armed /\
  posted (handleSaveMood 1000 (setNotes "a quiet day" armed)) = [] /\
  history (handleSaveMood 1000 (setNotes "a quiet day" armed)) = [] /\
  notes (handleSaveMood 1000 (setNotes "a quiet day" armed)) = "a quiet day"%string.
Proof.
  apply (handleSaveMood_without_mood 1000 (setNotes "a quiet day" armed)).
  reflexivity.
Defined.

(** ** Loading: the 10 second timer *)

Ltac split_matches :=
  repeat match goal with
  | |- context [match ?x with _ => _ end] =>
      lazymatch x with
      | context [match _ with _ => _ end] => fail
      | _ => destruct x; simpl
      end
  end.

(** A step leaves the script elements alone or appends one made by
    [loadScript]. *)
Lemma step_scripts w ev :
  scripts (step w ev) = scripts w \/
  scripts (step w ev) = scripts w ++ [mkScript true true].
Proof.
  destruct ev; simpl;
    unfold scriptOnload, scriptOnerror, scriptTimeout, resolveScript, rejectScript,
           streamSettled, modelsResolved, modelsRejected, runDetection,
           inferenceResolved, inferenceRejected, handleSaveMood;
    split_matches; simpl; auto.
Qed.

Lemma step_scriptsHaveOnload w ev : scriptsHaveOnload w -> scriptsHaveOnload (step w ev).
Proof.
  unfold scriptsHaveOnload. intros H.
  destruct (step_scripts w ev) as [-> | ->]; [assumption|].
  apply Forall_app; split; [assumption|]. constructor; [reflexivity|constructor].
Qed.

Lemma run_scriptsHaveOnload evs w : scriptsHaveOnload w -> scriptsHaveOnload (run evs w).
Proof.
  revert w. induction evs as [|ev evs IH]; intros w H; simpl; [assumption|].
  apply IH. now apply step_scriptsHaveOnload.
Qed.

Lemma mounted_scriptsHaveOnload : scriptsHaveOnload mounted.
Proof. repeat constructor. Qed.

Lemma scriptTimeout_inert n w : scriptsHaveOnload w -> scriptTimeout n w = w.
Proof.
  unfold scriptsHaveOnload, scriptTimeout. intros H.
  destruct (nth_error (scripts w) n) as [sc|] eqn:E; [|reflexivity].
  rewrite Forall_forall in H. rewrite (H sc (nth_error_In _ _ E)). reflexivity.
Qed.

(** C6, on the code.  The callback of the 10 second timer tests
    [!script.onload], and [loadScript] has assigned [onload]: after any
    course of events, the timer of any script changes nothing.  When the
    first script neither loads nor fails, the chain is still waiting for it
    after the timer: nothing is rejected, [startVideo] is not called and
    the models are not marked as loaded. *)
Theorem script_timer_changes_nothing :
  (forall evs n, run (evs ++ [ScriptTimer n]) mounted = run evs mounted) /\
  (let w := run [ScriptTimer 0] mounted in
   phase w = LoadingScript 0 /\ videoStarts w = 0%nat /\
   modelsLoaded w = false /\ error w = EmptyString).
Proof.
  split.
  - intros evs n. unfold run. rewrite fold_left_app. simpl.
    apply scriptTimeout_inert. apply run_scriptsHaveOnload, mounted_scriptsHaveOnload.
  - cbv zeta. repeat split; reflexivity.
Qed.

(** The path that does work: an [error] event on the pending script runs
    the [catch] handler, which starts the camera and leaves both models
    unset. *)
Lemma script_error_degrades :
  let w := run [ScriptError 0] mounted in
  phase w = Failed /\ videoStarts w = 1%nat /\ modelsLoaded w = true /\
  faceModel w = false /\ handModel w = false.
Proof. cbv zeta. repeat split; reflexivity. Qed.

(** Once the chain has failed the models stay unset, whatever happens. *)
Lemma step_failed w ev :
  phase w = Failed -> faceModel w = false ->
  phase (step w ev) = Failed /\ faceModel (step w ev) = false.
Proof.
  intros Hp Hf. destruct w; simpl in Hp, Hf; subst.
  destruct ev; simpl;
    unfold scriptOnload, scriptOnerror, scriptTimeout, resolveScript, rejectScript,
           streamSettled, modelsResolved, modelsRejected, runDetection,
           inferenceResolved, inferenceRejected, handleSaveMood;
    simpl; split_matches; simpl; auto.
Qed.

Lemma run_failed evs w :
  phase w = Failed -> faceModel w = false ->
  phase (run evs w) = Failed /\ faceModel (run evs w) = false.
Proof.
  revert w. induction evs as [|ev evs IH]; intros w Hp Hf; simpl; [auto|].
  destruct (step_failed w ev Hp Hf) as [Hp' Hf']. now apply IH.
Qed.

(** After a failed load every tick that runs is a simulated cycle. *)
Lemma failed_load_uses_simulator evs time rnd :
  let w := run (ScriptError 0 :: evs) mounted in
  captureReady w ->
  runDetection time rnd w = handleFallbackDetection time rnd (setIsDetecting true w).
Proof.
  cbv zeta. intros Hready. rewrite (runDetection_ready _ _ _ Hready).
  assert (Hf : faceModel (run (ScriptError 0 :: evs) mounted) = false).
  { change (run (ScriptError 0 :: evs) mounted) with (run evs (run [ScriptError 0] mounted)).
    apply run_failed; reflexivity. }
  now rewrite Hf.
Qed.

(** ** The history route *)

Lemma insertByTimestamp_In x l y :
  In y (insertByTimestamp x l) <-> y = x \/ In y l.
Proof.
  induction l as [|z zs IH]; simpl.
  - intuition.
  - destruct (log_timestamp z <? log_timestamp x)%Z; simpl; [intuition|].
    rewrite IH. intuition.
Qed.

Lemma insertByTimestamp_sorted x l :
  newestFirst l -> newestFirst (insertByTimestamp x l).
Proof.
  unfold newestFirst. induction l as [|z zs IH]; intros Hs; simpl.
  - repeat constructor.
  - inversion Hs as [|? ? Hzs Hall]; subst.
    destruct (log_timestamp z <? log_timestamp x)%Z eqn:E.
    + apply Z.ltb_lt in E. constructor; [assumption|].
      constructor; [lia|].
      rewrite Forall_forall in Hall |- *. intros y Hy. specialize (Hall y Hy). lia.
    + apply Z.ltb_ge in E. constructor; [now apply IH|].
      rewrite Forall_forall in Hall |- *. intros y Hy.
      apply insertByTimestamp_In in Hy. destruct Hy as [-> | Hy]; [lia|now apply Hall].
Qed.

Lemma insertByTimestamp_length x l :
  List.length (insertByTimestamp x l) = S (List.length l).
Proof.
  induction l as [|z zs IH]; simpl; [reflexivity|].
  destruct (log_timestamp z <? log_timestamp x)%Z; simpl; [reflexivity|now rewrite IH].
Qed.

Lemma sortNewestFirst_snoc l x :
  sortNewestFirst (l ++ [x]) = insertByTimestamp x (sortNewestFirst l).
Proof. unfold sortNewestFirst. now rewrite fold_left_app. Qed.

Lemma sortNewestFirst_spec l :
  newestFirst (sortNewestFirst l) /\
  (forall y, In y (sortNewestFirst l) <-> In y l) /\
  List.length (sortNewestFirst l) = List.length l.
Proof.
  induction l as [|x l IH] using rev_ind.
  - split; [constructor|]. split; [intros y; simpl; tauto | reflexivity].
  - destruct IH as (Hs & Hin & Hlen). rewrite sortNewestFirst_snoc.
    split; [now apply insertByTimestamp_sorted|]. split.
    + intros y. rewrite insertByTimestamp_In, in_app_iff, Hin. simpl.
      intuition congruence.
    + rewrite insertByTimestamp_length, length_app, Hlen. simpl. lia.
Qed.

Lemma In_firstn {A} n (l : list A) y : In y (firstn n l) -> In y l.
Proof.
  intros H. rewrite <- (firstn_skipn n l). apply in_or_app. now left.
Qed.

(** A log stamped later than every log of a sorted list goes in front. *)
Lemma insertByTimestamp_newest x l :
  (forall d, In d l -> (log_timestamp d < log_timestamp x)%Z) ->
  insertByTimestamp x l = x :: l.
Proof.
  intros H. destruct l as [|z zs]; [reflexivity|]. simpl.
  assert (Hz : (log_timestamp z <? log_timestamp x)%Z = true)
    by (apply Z.ltb_lt, H; now left).
  now rewrite Hz.
Qed.

Lemma newestFirst_firstn n l : newestFirst l -> newestFirst (firstn n l).
Proof.
  unfold newestFirst. revert n. induction l as [|x l IH]; intros n Hs.
  - destruct n; constructor.
  - destruct n; simpl; [constructor|].
    inversion Hs as [|? ? Hl Hall]; subst. constructor; [now apply IH|].
    rewrite Forall_forall in Hall |- *. intros y Hy.
    apply Hall. eapply In_firstn. exact Hy.
Qed.

(** C8 as stated fails: the body [backdatedBody] is valid and its post is
    answered 200 with the stored record, yet the next history puts the
    record behind the log already stored, whose timestamp is later. *)
Lemma backdated_log_counterexample :
  exists m old db',
    route 3000 (PostLog backdatedBody) storeWithOne = (mkResponse 200 (SavedLog m), db') /\
    route 3001 GetHistory db' = (mkResponse 200 (Logs [old; m]), db') /\
    log_id old <> log_id m /\
    nth_error [old; m] 0 <> Some m.
Proof.
  do 3 eexists. split; [reflexivity|]. split; [reflexivity|].
  split; [discriminate|]. simpl. intros H. inversion H.
Qed.

(** C8, amended.  A post answered 200 carries the record just stored,
    and the next history is answered 200 with at most 20 records of the
    store, ordered by timestamp, newest first; the record just stored is
    at index 0 when its timestamp is later than that of every record stored
    before. *)
Theorem log_then_history (now later : Z) (body : Body) (db db' : Db) (resp : Response) :
  route now (PostLog body) db = (resp, db') ->
  status resp = 200%nat ->
  exists m logs,
    payload resp = SavedLog m /\
    docs db' = docs db ++ [m] /\
    route later GetHistory db' = (mkResponse 200 (Logs logs), db') /\
    (List.length logs <= 20)%nat /\
    List.length logs = Nat.min 20 (List.length (docs db')) /\
    newestFirst logs /\
    (forall x, In x logs -> In x (docs db')) /\
    ((forall d, In d (docs db) -> (log_timestamp d < log_timestamp m)%Z) ->
     nth_error logs 0 = Some m).
Proof.
  unfold route, addMoodLog. destruct (saveMoodLog now body db) as [[m dbs]|] eqn:Hsave.
  - intros Heq _. injection Heq as <- <-.
    assert (Hdocs : docs dbs = docs db ++ [m]).
    { unfold saveMoodLog in Hsave. destruct (b_mood body) as [mo|]; [|discriminate].
      destruct (String.eqb mo EmptyString); [discriminate|].
      injection Hsave as <- <-. reflexivity. }
    destruct (sortNewestFirst_spec (docs dbs)) as (Hs & Hin & Hlen).
    exists m, (firstn 20 (sortNewestFirst (docs dbs))).
    split; [reflexivity|]. split; [exact Hdocs|]. split; [reflexivity|].
    split; [apply firstn_le_length|].
    split; [now rewrite length_firstn, Hlen|].
    split; [now apply newestFirst_firstn|].
    split.
    + intros x Hx. apply Hin. eapply In_firstn. exact Hx.
    + intros Hnew. rewrite Hdocs, sortNewestFirst_snoc.
      rewrite insertByTimestamp_newest; [reflexivity|].
      intros d Hd. apply Hnew. now apply (proj2 (sortNewestFirst_spec (docs db))).
  - intros Heq Hst. injection Heq as <- <-. discriminate Hst.
Qed.

Lemma log_then_history_witness :
  exists m logs,
    payload (fst (route 3000 (PostLog backdatedBody) (mkDb [] 0))) = SavedLog m /\
    route 3001 GetHistory (snd (route 3000 (PostLog backdatedBody) (mkDb [] 0)))
      = (mkResponse 200 (Logs logs), snd (route 3000 (PostLog backdatedBody) (mkDb [] 0))) /\
    nth_error logs 0 = Some m.
Proof.
  destruct (log_then_history 3000 3001 backdatedBody (mkDb [] 0)
              (snd (route 3000 (PostLog backdatedBody) (mkDb [] 0)))
              (fst (route 3000 (PostLog backdatedBody) (mkDb [] 0))))
    as (m & logs & Hp & _ & Hh & _ & _ & _ & _ & Hfirst).
  - reflexivity.
  - reflexivity.
  - exists m, logs. split; [exact Hp|]. split; [exact Hh|].
    apply Hfirst. intros d Hd. destruct Hd.
Defined.

(** * Further properties of the code *)

(** ** The four heuristics *)

(** Decide every [Rmin] and [Rmax] of the goal, innermost first. *)
Ltac no_dec t :=
  lazymatch t with
  | context [Rle_dec _ _] => fail
  | _ => idtac
  end.

Ltac rminmax_in :=
  unfold Rmin, Rmax;
  repeat match goal with
  | |- context [Rle_dec ?a ?b] =>
      no_dec a; no_dec b;
      destruct (Rle_dec a b); cbv beta iota; try (exfalso; lra)
  end.

(** X1.  The sadness score lies in [0, 0.7], and the cap is reached exactly
    when all three cues are present (0.4 + 0.2 + 0.15). *)
Theorem sadness_range (turnedDown : bool) (cornerDiff ratio : R) :
  0 <= calculateSadnessScore turnedDown cornerDiff ratio <= 0.7 /\
  (calculateSadnessScore turnedDown cornerDiff ratio = 0.7 <->
   turnedDown = true /\ cornerDiff > 4 /\ ratio < 1.5).
Proof.
  unfold calculateSadnessScore; cbv zeta.
  destruct turnedDown; rcases; rminmax;
    (split; [lra|]); split;
    try (intros H; exfalso; lra);
    try (intros (H1 & H2 & H3); first [discriminate | lra]);
    try (intros _; repeat split; first [reflexivity | lra]).
Qed.

Lemma sadness_range_witness : calculateSadnessScore true 5 1 = 0.7.
Proof.
  apply (proj2 (sadness_range true 5 1)). repeat split; lra.
Defined.

(** X2.  The anger score is the plain sum of its two weights: it never exceeds
    0.55, so the cap at 0.6 never takes effect. *)
Theorem anger_cap_never_binds (lowered inward : bool) (leftAngle rightAngle : R) :
  calculateAngerScore lowered inward leftAngle rightAngle =
    (if lowered then 0.3 else 0) +
    (if inward then 0.25
     else if (leftAngle <? -15) || (rightAngle >? 15) then 0.15 else 0) /\
  0 <= calculateAngerScore lowered inward leftAngle rightAngle <= 0.55.
Proof.
  unfold calculateAngerScore; cbv zeta.
  destruct lowered, inward; rcases; simpl; rminmax; split; lra.
Qed.

(** X3.  The surprise score lies in [0, 0.9]; it is 0.9 exactly when the three
    cues are present (their weights sum to 1.0, which the cap cuts), and
    any single cue gives at least 0.3. *)
Theorem surprise_range (raised wide open : bool) :
  0 <= calculateSurpriseScore raised wide open <= 0.9 /\
  (calculateSurpriseScore raised wide open = 0.9 <->
   raised = true /\ wide = true /\ open = true) /\
  (raised || wide || open = true -> 0.3 <= calculateSurpriseScore raised wide open).
Proof.
  unfold calculateSurpriseScore; cbv zeta.
  destruct raised, wide, open; simpl; rminmax;
    (split; [lra|]); (split; [|intros H; first [discriminate | lra]]); split;
    try (intros H; exfalso; lra);
    try (intros (H1 & H2 & H3); first [discriminate | lra]);
    try (intros _; repeat split; first [reflexivity | lra]).
Qed.

Lemma surprise_range_witness : 0.3 <= calculateSurpriseScore false true false.
Proof.
  destruct (surprise_range false true false) as (_ & _ & H). apply H. reflexivity.
Defined.

Lemma happiness_values ratio turnedDown :
  calculateHappinessScore ratio turnedDown =
    (if ratio >? 3.0 then (if turnedDown then 0.6 else 0.8)
     else if ratio >? 2.5 then (if turnedDown then 0.4 else 0.6)
     else if ratio >? 2.0 then (if turnedDown then 0.2 else 0.4)
     else if ratio >? 1.5 then (if turnedDown then 0 else 0.2)
     else 0).
Proof.
  unfold calculateHappinessScore; cbv zeta.
  destruct turnedDown; rcases; rminmax_in; lra.
Qed.

(** X4.  The happiness score lies in [0, 0.8], so the cap at 0.95 never takes
    effect; it does not decrease when the mouth ratio grows; and a
    turned-down mouth costs 0.2, floored at 0. *)
Theorem happiness_range_monotone (r1 r2 : R) (turnedDown : bool) :
  0 <= calculateHappinessScore r1 turnedDown <= 0.8 /\
  (r1 <= r2 -> calculateHappinessScore r1 turnedDown <= calculateHappinessScore r2 turnedDown) /\
  calculateHappinessScore r1 true = Rmax 0 (calculateHappinessScore r1 false - 0.2).
Proof.
  rewrite !happiness_values. split; [|split].
  - destruct turnedDown; rcases; lra.
  - intros Hle. destruct turnedDown; rcases; lra.
  - rcases; rminmax_in; lra.
Qed.

Lemma happiness_range_monotone_witness :
  calculateHappinessScore 2.2 false <= calculateHappinessScore 3.2 false.
Proof.
  destruct (happiness_range_monotone 2.2 3.2 false) as (_ & Hmono & _).
  apply Hmono. lra.
Defined.

(** ** The scores written to [emotions] *)

Lemma sadness_bounds b d r : 0 <= calculateSadnessScore b d r <= 0.7.
Proof.
  unfold calculateSadnessScore; cbv zeta. destruct b; rcases; rminmax_in; lra.
Qed.

Lemma anger_bounds b i la ra : 0 <= calculateAngerScore b i la ra <= 0.55.
Proof.
  unfold calculateAngerScore; cbv zeta.
  destruct b, i; rcases; simpl; rminmax_in; lra.
Qed.

Lemma surprise_bounds a b c : 0 <= calculateSurpriseScore a b c <= 0.9.
Proof.
  unfold calculateSurpriseScore; cbv zeta. destruct a, b, c; rminmax_in; lra.
Qed.

Lemma happiness_bounds r b : 0 <= calculateHappinessScore r b <= 0.8.
Proof. rewrite happiness_values. destruct b; rcases; lra. Qed.

(** X5.  The five assignments overwrite every key: what they leave in
    [emotions] does not depend on what was there (the defaults do not leak
    into a computed result), no draw is consumed, and each value lies in
    the range its floor and cap give: neutral in [0.05, 0.4], happy in
    [0, 0.7], sad in [0.1, 0.7], angry in [0.1, 0.55], surprised in
    [0.1, 0.9]. *)
Theorem assignScores_overwrites (fm : FaceMetrics) :
  exists e,
    (forall s, assignScores fm s = Ok tt (mkStore e (calls s))) /\
    0.05 <= get e neutral <= 0.4 /\
    0 <= get e happy <= 0.7 /\
    0.1 <= get e sad <= 0.7 /\
    0.1 <= get e angry <= 0.55 /\
    0.1 <= get e surprised <= 0.9.
Proof.
  eexists. split.
  - intros s.
    cbv [assignScores bind writeE emotions calls set
         e_neutral e_happy e_sad e_angry e_surprised].
    reflexivity.
  - pose proof (sadness_bounds (isMouthTurnedDown fm) (mouthCornerDiff fm) (mouthRatio fm)).
    pose proof (anger_bounds (eyebrowLowered fm) (eyebrowsAngledInward fm)
                  (leftEyebrowAngle fm) (rightEyebrowAngle fm)).
    pose proof (surprise_bounds (eyebrowRaised fm) (eyesWideOpen fm) (isMouthOpen fm)).
    pose proof (happiness_bounds (mouthRatio fm) (isMouthTurnedDown fm)).
    simpl. repeat split; rminmax_in; lra.
Qed.

(** X6.  On values that are not negative, the noise loop consumes exactly five
    draws, one per key in key order, moves no value by more than 0.025 and
    leaves no value negative. *)
Theorem addNoise_bounded (rnd : nat -> R) (s : Store) :
  unitDraws rnd ->
  (forall k, 0 <= get (emotions s) k) ->
  exists e',
    addNoise rnd s = Ok tt (mkStore e' (5 + calls s)) /\
    forall k,
      get e' k = Rmax 0 (get (emotions s) k + (rnd (key_index k + calls s)%nat * 0.05 - 0.025)) /\
      0 <= get e' k /\
      Rabs (get e' k - get (emotions s) k) <= 0.025.
Proof.
  intros Hr Hpos. destruct s as [[vn vh vs va vu] n]. eexists. split.
  - cbv [addNoise bind writeE readE random forEach keys ret emotions calls get set
         e_neutral e_happy e_sad e_angry e_surprised].
    reflexivity.
  - intros k. pose proof (Hpos k) as Hk. pose proof (Hr (key_index k + n)%nat) as Hd.
    destruct k; simpl in *; (split; [reflexivity|]);
      rminmax_in; split; try lra; apply Rabs_le; lra.
Qed.

Lemma addNoise_bounded_witness :
  exists e',
    addNoise (fun _ => 0) (mkStore defaultEmotions 0) = Ok tt (mkStore e' 5) /\
    forall k, 0 <= get e' k /\ Rabs (get e' k - get defaultEmotions k) <= 0.025.
Proof.
  destruct (addNoise_bounded (fun _ => 0) (mkStore defaultEmotions 0)) as (e' & Hrun & Hk).
  - intros k; lra.
  - intros k; destruct k; simpl; lra.
  - exists e'. split; [exact Hrun|].
    intros k. destruct (Hk k) as (_ & H1 & H2). split; assumption.
Defined.

(** ** Every input *)

Lemma calculate_isDistribution rnd landmarks :
  unitDraws rnd -> isDistribution (calculateEmotionsFromLandmarks rnd landmarks).
Proof.
  intros Hr. destruct landmarks as [l|]; [|apply defaultEmotions_isDistribution].
  destruct (le_lt_dec 20 (List.length l)) as [Hlen | Hlen].
  - destruct (calculate_cases rnd l Hlen) as [[_ ->] | [fm [_ ->]]].
    + apply defaultEmotions_isDistribution.
    + apply normalize_isDistribution;
        [apply noisyScores_nonneg | now apply noisyScores_total_pos].
  - unfold calculateEmotionsFromLandmarks.
    apply Nat.ltb_lt in Hlen. rewrite Hlen. apply defaultEmotions_isDistribution.
Qed.

(** X7.  Whatever the argument (missing, short, with holes, or a full mesh),
    the object returned is a distribution. *)
Theorem calculateEmotions_any_input (rnd : nat -> R) (landmarks : Landmarks) :
  unitDraws rnd ->
  isDistribution (calculateEmotionsFromLandmarks rnd landmarks).
Proof.
  intros Hr. destruct landmarks as [l|]; [|apply defaultEmotions_isDistribution].
  destruct (le_lt_dec 20 (List.length l)) as [Hlen | Hlen].
  - destruct (calculate_cases rnd l Hlen) as [[_ ->] | [fm [_ ->]]].
    + apply defaultEmotions_isDistribution.
    + apply normalize_isDistribution;
        [apply noisyScores_nonneg | now apply noisyScores_total_pos].
  - unfold calculateEmotionsFromLandmarks.
    apply Nat.ltb_lt in Hlen. rewrite Hlen. apply defaultEmotions_isDistribution.
Qed.

Lemma calculateEmotions_any_input_witness :
  isDistribution (calculateEmotionsFromLandmarks (fun _ => 0.5) (Some [None; None])).
Proof. apply calculateEmotions_any_input. intros k; lra. Defined.

(** ** The dominant key *)

Lemma get_normalize e k : get (normalize e) k = get e k / total_of e.
Proof. rewrite normalize_fields. destruct k; reflexivity. Qed.

Lemma Rgtb_div a b t : 0 < t -> (a / t >? b / t) = (a >? b).
Proof.
  intros Ht. assert (Hi : 0 < / t) by now apply Rinv_0_lt_compat.
  unfold Rdiv. destruct (a >? b) eqn:E.
  - apply Rgtb_true in E. apply Rgtb_true. nra.
  - apply Rgtb_false in E. apply Rgtb_false. nra.
Qed.

Lemma dominantEmotion_normalize e :
  0 < total_of e -> dominantEmotion (normalize e) = dominantEmotion e.
Proof.
  intros Ht. unfold dominantEmotion. simpl.
  rewrite !get_normalize. rewrite !(Rgtb_div _ _ _ Ht). reflexivity.
Qed.

Lemma dominantEmotion_strict_max e d :
  (forall k, k <> d -> get e k < get e d) -> dominantEmotion e = d.
Proof.
  intros Hmax. destruct (dominantEmotion_latest e) as [Hge _].
  specialize (Hge d).
  destruct (dominantEmotion e) eqn:E, d; try reflexivity;
    exfalso;
    match goal with
    | H : get e ?d' <= get e ?k' |- _ =>
        assert (Hlt : get e k' < get e d') by (apply Hmax; discriminate); lra
    end.
Qed.

(** X8.  The mood can be read before or after normalising: dividing by the
    (positive) total does not change the dominant key; and when one key is
    strictly above all others, that key is the dominant one. *)
Theorem dominant_stable (e : Emotions) (d : Label) :
  (0 < total_of e -> dominantEmotion (normalize e) = dominantEmotion e) /\
  ((forall k, k <> d -> get e k < get e d) -> dominantEmotion e = d).
Proof.
  split; [apply dominantEmotion_normalize | apply dominantEmotion_strict_max].
Qed.

Lemma dominant_stable_witness :
  dominantEmotion (normalize defaultEmotions) = dominantEmotion defaultEmotions /\
  dominantEmotion defaultEmotions = happy.
Proof.
  destruct (dominant_stable defaultEmotions happy) as [Hn Hm]. split.
  - apply Hn. rewrite total_of_sum. simpl. lra.
  - apply Hm. intros k Hk. destruct k; simpl; try lra. contradiction.
Defined.

(** ** Expressions that decide the mood whatever the noise *)

Lemma calculate_of_metrics rnd l fm :
  (20 <= List.length l)%nat ->
  faceMetrics l (mkStore defaultEmotions 0) = Ok fm (mkStore defaultEmotions 0) ->
  calculateEmotionsFromLandmarks rnd (Some l) = normalize (noisyScores rnd fm).
Proof.
  intros Hlen Hfm. unfold calculateEmotionsFromLandmarks.
  replace (List.length l <? 20)%nat with false
    by (symmetry; apply Nat.ltb_ge; exact Hlen).
  now rewrite (tryBlock_closed rnd l fm defaultEmotions Hfm).
Qed.

Ltac name_scores fm :=
  generalize dependent
    (calculateSadnessScore (isMouthTurnedDown fm) (mouthCornerDiff fm) (mouthRatio fm));
  generalize dependent
    (calculateAngerScore (eyebrowLowered fm) (eyebrowsAngledInward fm)
       (leftEyebrowAngle fm) (rightEyebrowAngle fm));
  generalize dependent
    (calculateSurpriseScore (eyebrowRaised fm) (eyesWideOpen fm) (isMouthOpen fm));
  generalize dependent
    (calculateHappinessScore (mouthRatio fm) (isMouthTurnedDown fm));
  intros vh Hvh vu Hvu va Hva vs Hvs.

(** X9.  A wide smile wins: when the mouth ratio exceeds 3, the mouth is not
    turned down and the eyebrows are not raised together with wide eyes or
    an open mouth, the dominant key is happy for every draw of the noise. *)
Theorem wide_smile_is_happy (rnd : nat -> R) (l : list Entry) (fm : FaceMetrics) :
  unitDraws rnd ->
  (20 <= List.length l)%nat ->
  faceMetrics l (mkStore defaultEmotions 0) = Ok fm (mkStore defaultEmotions 0) ->
  mouthRatio fm > 3 ->
  isMouthTurnedDown fm = false ->
  eyebrowRaised fm = false \/ (eyesWideOpen fm = false /\ isMouthOpen fm = false) ->
  dominantEmotion (calculateEmotionsFromLandmarks rnd (Some l)) = happy.
Proof.
  intros Hr Hlen Hfm Hratio Hdown Hcues.
  rewrite (calculate_of_metrics rnd l fm Hlen Hfm).
  rewrite dominantEmotion_normalize by now apply noisyScores_total_pos.
  apply dominantEmotion_strict_max. intros k Hk.
  assert (Hh : calculateHappinessScore (mouthRatio fm) (isMouthTurnedDown fm) = 0.8).
  { rewrite happiness_values, Hdown. rcases. reflexivity. }
  assert (Hs : 0 <= calculateSadnessScore (isMouthTurnedDown fm) (mouthCornerDiff fm)
                      (mouthRatio fm) <= 0.2).
  { unfold calculateSadnessScore; cbv zeta. rewrite Hdown. rcases; rminmax_in; lra. }
  pose proof (anger_bounds (eyebrowLowered fm) (eyebrowsAngledInward fm)
                (leftEyebrowAngle fm) (rightEyebrowAngle fm)) as Ha.
  assert (Hu : 0 <= calculateSurpriseScore (eyebrowRaised fm) (eyesWideOpen fm)
                      (isMouthOpen fm) <= 0.6).
  { unfold calculateSurpriseScore; cbv zeta.
    destruct Hcues as [-> | [-> ->]];
      [destruct (eyesWideOpen fm), (isMouthOpen fm) | destruct (eyebrowRaised fm)];
      rminmax_in; lra. }
  pose proof (Hr 0%nat). pose proof (Hr 1%nat). pose proof (Hr 2%nat).
  pose proof (Hr 3%nat). pose proof (Hr 4%nat).
  unfold noisyScores; cbv zeta. name_scores fm.
  destruct k; simpl; try contradiction; rminmax_in; lra.
Qed.

Lemma narrowMouth_metrics :
  exists fm,
    faceMetrics (map Some narrowMouth) (mkStore defaultEmotions 0) =
      Ok fm (mkStore defaultEmotions 0) /\
    mouthRatio fm = 6 /\ isMouthTurnedDown fm = false /\ eyebrowRaised fm = false.
Proof.
  eexists. split.
  - unfold faceMetrics; cbv zeta.
    cbv [narrowMouth at_index_or at_index nth_error map repeat app].
    cbv [coord0 coord1 px py bind ret]. reflexivity.
  - cbv [mouthRatio isMouthTurnedDown eyebrowRaised].
    assert (Hw : sqrt ((3 - 0) ^ 2 + (0 - 0) ^ 2) = 3)
      by (apply sqrt_of_square; lra).
    assert (Hh : sqrt ((0 - 0) ^ 2 + (0 - 0.5) ^ 2) = 0.5)
      by (apply sqrt_of_square; lra).
    rewrite Hw, Hh. unfold num_or.
    replace (0 - 0) with 0 by lra. rewrite Rabs_R0.
    rcases. repeat split. lra.
Qed.

Lemma wide_smile_is_happy_witness :
  dominantEmotion
    (calculateEmotionsFromLandmarks (fun _ => 0.5) (Some (map Some narrowMouth))) = happy.
Proof.
  destruct narrowMouth_metrics as (fm & Hfm & Hratio & Hdown & Hraised).
  apply (wide_smile_is_happy (fun _ => 0.5) (map Some narrowMouth) fm).
  - intros k; lra.
  - simpl; lia.
  - exact Hfm.
  - rewrite Hratio; lra.
  - exact Hdown.
  - left; exact Hraised.
Defined.

(** X10.  A startled face wins: with raised eyebrows, wide eyes and an open
    mouth together, the dominant key is surprised for every draw of the
    noise, whatever the other measurements. *)
Theorem startled_is_surprised (rnd : nat -> R) (l : list Entry) (fm : FaceMetrics) :
  unitDraws rnd ->
  (20 <= List.length l)%nat ->
  faceMetrics l (mkStore defaultEmotions 0) = Ok fm (mkStore defaultEmotions 0) ->
  eyebrowRaised fm = true ->
  eyesWideOpen fm = true ->
  isMouthOpen fm = true ->
  dominantEmotion (calculateEmotionsFromLandmarks rnd (Some l)) = surprised.
Proof.
  intros Hr Hlen Hfm Hraised Hwide Hopen.
  rewrite (calculate_of_metrics rnd l fm Hlen Hfm).
  rewrite dominantEmotion_normalize by now apply noisyScores_total_pos.
  apply dominantEmotion_strict_max. intros k Hk.
  assert (Hu : calculateSurpriseScore (eyebrowRaised fm) (eyesWideOpen fm)
                 (isMouthOpen fm) = 0.9).
  { rewrite Hraised, Hwide, Hopen. unfold calculateSurpriseScore; cbv zeta.
    rminmax_in; lra. }
  pose proof (sadness_bounds (isMouthTurnedDown fm) (mouthCornerDiff fm) (mouthRatio fm)) as Hs.
  pose proof (anger_bounds (eyebrowLowered fm) (eyebrowsAngledInward fm)
                (leftEyebrowAngle fm) (rightEyebrowAngle fm)) as Ha.
  pose proof (happiness_bounds (mouthRatio fm) (isMouthTurnedDown fm)) as Hh.
  pose proof (Hr 0%nat). pose proof (Hr 1%nat). pose proof (Hr 2%nat).
  pose proof (Hr 3%nat). pose proof (Hr 4%nat).
  unfold noisyScores; cbv zeta. name_scores fm.
  destruct k; simpl; try contradiction; rminmax_in; lra.
Qed.

Lemma startledFace_metrics :
  exists fm,
    faceMetrics (map Some startledFace) (mkStore defaultEmotions 0) =
      Ok fm (mkStore defaultEmotions 0) /\
    eyebrowRaised fm = true /\ eyesWideOpen fm = true /\ isMouthOpen fm = true.
Proof.
  eexists. split.
  - unfold faceMetrics; cbv zeta.
    cbv [startledFace at_index_or at_index nth_error map repeat app].
    cbv [coord0 coord1 px py bind ret]. reflexivity.
  - cbv [eyebrowRaised eyesWideOpen isMouthOpen].
    assert (Hw : sqrt ((0 - 0) ^ 2 + (0 - 0) ^ 2) = 0)
      by (apply sqrt_of_square; lra).
    assert (Hh : sqrt ((0 - 0) ^ 2 + (0 - 1) ^ 2) = 1)
      by (apply sqrt_of_square; lra).
    rewrite Hw, Hh.
    assert (H30 : Rabs (30 - 0) = 30)
      by (unfold Rabs; destruct (Rcase_abs _); lra).
    assert (H20 : Rabs (0 - 20) = 20)
      by (unfold Rabs; destruct (Rcase_abs _); lra).
    rewrite H30, H20. rcases; repeat split.
Qed.

Lemma startled_is_surprised_witness :
  dominantEmotion
    (calculateEmotionsFromLandmarks (fun _ => 0.5) (Some (map Some startledFace)))
  = surprised.
Proof.
  destruct startledFace_metrics as (fm & Hfm & Hraised & Hwide & Hopen).
  apply (startled_is_surprised (fun _ => 0.5) (map Some startledFace) fm);
    try assumption.
  - intros k; lra.
  - simpl; lia.
Defined.

(** ** When the metrics are defined *)

Ltac invert_metrics :=
  unfold faceMetrics; cbv zeta;
  need_point 291%nat 1%nat; need_point 61%nat 0%nat;
  need_point 13%nat 2%nat; need_point 14%nat 3%nat;
  need_point 0%nat 4%nat;
  need_point 65%nat 11%nat; need_point 159%nat 5%nat;
  need_point 295%nat 13%nat; need_point 386%nat 6%nat;
  need_point 105%nat 12%nat; need_point 334%nat 14%nat;
  need_point 159%nat 7%nat; need_point 145%nat 8%nat;
  need_point 386%nat 9%nat; need_point 374%nat 10%nat;
  cbv [coord0 coord1 bind ret].

Lemma faceMetrics_Ok_points l s s' fm :
  faceMetrics l s = Ok fm s' ->
  forall i j, In (i, j) usedKeyPoints -> at_index_or l i j <> None.
Proof.
  invert_metrics. intros _ i j Hin.
  simpl in Hin.
  repeat (destruct Hin as [Hin | Hin];
          [injection Hin as <- <-; congruence|]).
  contradiction.
Qed.

Lemma faceMetrics_points_Ok l s :
  (forall i j, In (i, j) usedKeyPoints -> at_index_or l i j <> None) ->
  exists fm, faceMetrics l s = Ok fm s.
Proof.
  intros H. unfold faceMetrics; cbv zeta.
  repeat match goal with
  | |- context [coord0 (at_index_or l ?i ?j)] =>
      let p := fresh "p" in
      destruct (at_index_or l i j) as [p|] eqn:?;
      [ | exfalso; apply (H i j); [simpl; auto 20 | assumption] ]
  | |- context [coord1 (at_index_or l ?i ?j)] =>
      let p := fresh "p" in
      destruct (at_index_or l i j) as [p|] eqn:?;
      [ | exfalso; apply (H i j); [simpl; auto 20 | assumption] ]
  end.
  cbv [coord0 coord1 bind ret]. eexists; reflexivity.
Qed.

(** X11.  The metrics are computed exactly when the fifteen key points whose
    coordinates are read are all present; a hole in one of them raises
    the error, with the store untouched.  The four key points that are
    looked up but never read (nose tip, cheeks, forehead) play no part. *)
Theorem faceMetrics_defined_iff (l : list Entry) (s : Store) :
  ((forall i j, In (i, j) usedKeyPoints -> at_index_or l i j <> None) ->
   exists fm, faceMetrics l s = Ok fm s) /\
  ((exists i j, In (i, j) usedKeyPoints /\ at_index_or l i j = None) ->
   faceMetrics l s = Throw s).
Proof.
  split; [apply faceMetrics_points_Ok|].
  intros (i & j & Hin & Hnone).
  destruct (pureM_faceMetrics l) as [[fm|] Hr]; [|apply Hr].
  exfalso. exact (faceMetrics_Ok_points l s s fm (Hr s) i j Hin Hnone).
Qed.

Lemma faceMetrics_defined_iff_witness :
  (exists fm, faceMetrics holedTail (mkStore defaultEmotions 0)
              = Ok fm (mkStore defaultEmotions 0)) /\
  faceMetrics (repeat None 20) (mkStore defaultEmotions 0) = Throw (mkStore defaultEmotions 0).
Proof.
  split.
  - apply (proj1 (faceMetrics_defined_iff holedTail (mkStore defaultEmotions 0))).
    intros i j Hin. simpl in Hin.
    repeat (destruct Hin as [Hin | Hin];
            [injection Hin as <- <-; discriminate|]).
    contradiction.
  - apply (proj2 (faceMetrics_defined_iff (repeat None 20) (mkStore defaultEmotions 0))).
    exists 291%nat, 1%nat. split; [simpl; auto|reflexivity].
Defined.

(** ** What the metrics satisfy *)

Lemma abs_le_sqrt d a : d * d <= a -> Rabs d <= sqrt a.
Proof.
  intros H. rewrite <- sqrt_Rsqr_abs. apply sqrt_le_1_alt. exact H.
Qed.

(** X12.  Whenever the metrics are computed: widths, heights and the ratio are
    not negative; the height difference of the mouth corners is at most
    the mouth width; and an open mouth has a positive height and a ratio
    below 10/3. *)
Theorem metrics_geometry (l : list Entry) (s s' : Store) (fm : FaceMetrics) :
  faceMetrics l s = Ok fm s' ->
  0 <= mouthWidth fm /\ 0 <= mouthHeight fm /\ 0 <= mouthRatio fm /\
  0 <= mouthCornerDiff fm <= mouthWidth fm /\
  0 <= leftEyebrowHeight fm /\ 0 <= rightEyebrowHeight fm /\
  0 <= leftEyeOpenness fm /\ 0 <= rightEyeOpenness fm /\
  (isMouthOpen fm = true -> 0 < mouthHeight fm /\ mouthRatio fm < 10 / 3).
Proof.
  invert_metrics. intros H. injection H as Hfm _. subst fm.
  cbv [mouthWidth mouthHeight mouthRatio mouthCornerDiff leftEyebrowHeight
       rightEyebrowHeight leftEyeOpenness rightEyeOpenness isMouthOpen].
  match goal with
  | |- context [sqrt ?a / num_or (sqrt ?b) 1] =>
      pose proof (sqrt_pos a) as Hw; pose proof (sqrt_pos b) as Hh;
      generalize dependent (sqrt b); intros h Hh
  end.
  match goal with
  | |- context [Rabs ?d <= sqrt ?a] =>
      assert (Hd : Rabs d <= sqrt a)
        by (apply abs_le_sqrt;
            match goal with
            | |- _ <= ?x * (?x * 1) + _ =>
                pose proof (Rle_0_sqr x) as Hsq; unfold Rsqr in Hsq
            end; lra);
      generalize dependent (sqrt a); intros w Hw Hd
  end.
  assert (Hratio : 0 <= w / num_or h 1).
  { unfold num_or. rcases.
    - unfold Rdiv. rewrite Rinv_1. lra.
    - apply Rmult_le_pos; [assumption|]. left. apply Rinv_0_lt_compat. lra. }
  repeat split; try assumption; try apply Rabs_pos.
  - apply Rgtb_true in H. nra.
  - apply Rgtb_true in H. unfold num_or. rcases.
    assert (Hpos : 0 < h) by nra.
    apply (Rmult_lt_reg_r h); [assumption|].
    unfold Rdiv. rewrite Rmult_assoc, Rinv_l by lra. lra.
Qed.

Lemma metrics_geometry_witness :
  exists fm,
    faceMetrics (map Some narrowMouth) (mkStore defaultEmotions 0) =
      Ok fm (mkStore defaultEmotions 0) /\
    0 <= mouthCornerDiff fm <= mouthWidth fm.
Proof.
  destruct narrowMouth_metrics as (fm & Hfm & _).
  exists fm. split; [exact Hfm|].
  destruct (metrics_geometry _ _ _ _ Hfm) as (_ & _ & _ & H & _). exact H.
Defined.

(** ** What the simulator can show *)

Lemma getRandomEmotions_dominant rnd c :
  unitDraws rnd ->
  dominantEmotion (getRandomEmotions rnd c) = dominantEmotion (drawProfile rnd c).
Proof.
  intros Hr. unfold getRandomEmotions. cbv zeta.
  apply dominantEmotion_normalize. now apply drawProfile_total_pos.
Qed.

(** X13.  A simulated cycle never shows angry or surprised: the mood is neutral
    or happy in the first three tenths of the 30 second cycle, always
    neutral in the next three tenths, and neutral, happy or sad in the
    rest. *)
Theorem simulated_mood (time : Z) (rnd : nat -> R) (w : World) :
  unitDraws rnd ->
  let c := cyclePositionAt time in
  exists d,
    mood (handleFallbackDetection time rnd w) = label_name d /\
    d <> angry /\ d <> surprised /\
    (c < 0.3 -> d = neutral \/ d = happy) /\
    (0.3 <= c < 0.6 -> d = neutral).
Proof.
  intros Hr c. exists (dominantEmotion (getRandomEmotions rnd c)).
  split; [reflexivity|].
  rewrite (getRandomEmotions_dominant rnd c Hr).
  destruct (dominantEmotion_latest (drawProfile rnd c)) as [Hmax _].
  pose proof (Hmax neutral) as Hn. pose proof (Hmax happy) as Hh.
  pose proof (Hr 0%nat). pose proof (Hr 1%nat). pose proof (Hr 2%nat).
  pose proof (Hr 3%nat). pose proof (Hr 4%nat).
  revert Hn Hh. clear Hmax.
  generalize (dominantEmotion (drawProfile rnd c)). intros d.
  unfold drawProfile. rcases; destruct d; simpl; intros Hn Hh;
    repeat split; try discriminate; try (intros _; auto; fail);
    try (intros Hc; exfalso; lra); try (exfalso; lra).
Qed.

Lemma simulated_mood_witness :
  exists d,
    mood (handleFallbackDetection 12000 (fun _ => 0.5) mounted) = label_name d /\
    d <> angry /\ d <> surprised.
Proof.
  assert (Hr : unitDraws (fun _ => 0.5)) by (intros k; lra).
  destruct (simulated_mood 12000 (fun _ => 0.5) mounted Hr) as (d & Hm & Ha & Hs & _).
  exists d. repeat split; assumption.
Defined.

Lemma cyclePositionAt_period time k :
  (0 <= time)%Z -> (0 <= k)%Z ->
  cyclePositionAt (time + 30000 * k) = cyclePositionAt time.
Proof.
  intros Ht Hk. unfold cyclePositionAt.
  rewrite !Z.rem_mod_nonneg by lia.
  replace (time + 30000 * k)%Z with (time + k * 30000)%Z by lia.
  now rewrite Z_mod_plus_full.
Qed.

(** X14.  The simulator has a period of 30 seconds: with the same draws, a
    cycle run any whole number of periods later stores the same scores and
    the same mood. *)
Theorem simulator_period (time k : Z) (rnd : nat -> R) (w : World) :
  (0 <= time)%Z -> (0 <= k)%Z ->
  handleFallbackDetection (time + 30000 * k) rnd w = handleFallbackDetection time rnd w.
Proof.
  intros Ht Hk. unfold handleFallbackDetection.
  now rewrite (cyclePositionAt_period time k Ht Hk).
Qed.

Lemma simulator_period_witness :
  handleFallbackDetection (1000 + 30000 * 2) (fun _ => 0.5) mounted =
  handleFallbackDetection 1000 (fun _ => 0.5) mounted.
Proof. apply simulator_period; lia. Defined.

(** ** Invariants of the component *)

Ltac unfold_handlers :=
  unfold scriptOnload, scriptOnerror, scriptTimeout, resolveScript, rejectScript,
         loadFailed, startVideo, loadScript,
         streamSettled, videoMetadata, modelsResolved, modelsRejected, runDetection,
         inferenceResolved, inferenceRejected, handleFallbackDetection,
         handleSaveMood, saveSucceeded.

Ltac split_matches_eqn :=
  repeat match goal with
  | |- context [match ?x with _ => _ end] =>
      lazymatch x with
      | context [match _ with _ => _ end] => fail
      | _ => destruct x eqn:?; simpl
      end
  end.

Lemma run_app evs1 evs2 w : run (evs1 ++ evs2) w = run evs2 (run evs1 w).
Proof. unfold run. apply fold_left_app. Qed.

Lemma run_invariant (P : World -> Prop) (Q : Event -> Prop) :
  (forall w ev, Q ev -> P w -> P (step w ev)) ->
  forall evs w, Forall Q evs -> P w -> P (run evs w).
Proof.
  intros Hstep evs. induction evs as [|ev evs IH]; intros w HQ HP; simpl; [assumption|].
  inversion HQ; subst. apply IH; [assumption|]. now apply Hstep.
Qed.

(** Check [drawsOk] along a concrete list of events. *)
Ltac draws_ok :=
  unfold armingEvents; simpl;
  repeat (apply Forall_cons; [first [exact I | intros ?; simpl; lra] |]);
  apply Forall_nil.

(** *** What is displayed and what is posted *)

Lemma getRandomEmotions_isDistribution rnd c :
  unitDraws rnd -> isDistribution (getRandomEmotions rnd c).
Proof.
  intros Hr. unfold getRandomEmotions. cbv zeta.
  apply normalize_isDistribution;
    [now apply drawProfile_nonneg | now apply drawProfile_total_pos].
Qed.

Lemma step_display w ev :
  drawsOk ev ->
  displayConsistent w /\ postedConsistent w ->
  displayConsistent (step w ev) /\ postedConsistent (step w ev).
Proof.
  intros Hd [Hdisp Hpost]. unfold displayConsistent, postedConsistent in *.
  destruct ev; simpl in *;
    try (unfold_handlers; split_matches; simpl; split; assumption).
  - (* Tick *)
    unfold runDetection. split_matches; simpl; try (split; assumption).
    split; [|assumption]. right. eexists. split; [reflexivity|].
    split; [reflexivity|]. now apply getRandomEmotions_isDistribution.
  - (* InferenceResolved *)
    destruct (inFlight w); [split; assumption|].
    unfold inferenceResolved. destruct faces as [|firstFace faces], hands;
      simpl; try (split; assumption);
      (split; [|assumption]); right; eexists; (split; [reflexivity|]);
      (split; [reflexivity|]); now apply calculate_isDistribution.
  - (* InferenceRejected *)
    destruct (inFlight w); [split; assumption|].
    split; [|assumption]. right. eexists. split; [reflexivity|].
    split; [reflexivity|]. now apply getRandomEmotions_isDistribution.
  - (* SaveClicked *)
    unfold handleSaveMood. destruct (String.eqb (mood w) EmptyString) eqn:E;
      [split; assumption|]. simpl. split; [assumption|].
    apply Forall_app. split; [assumption|]. constructor; [|constructor]. simpl.
    destruct Hdisp as [[Hm _] | Hm]; [|exact Hm].
    rewrite Hm in E. discriminate.
Qed.

Lemma run_display evs :
  Forall drawsOk evs ->
  displayConsistent (run evs mounted) /\ postedConsistent (run evs mounted).
Proof.
  intros Hd.
  apply (run_invariant (fun w => displayConsistent w /\ postedConsistent w) drawsOk);
    [exact step_display | exact Hd |].
  split; [left; split; reflexivity | constructor].
Qed.

(** X15.  After any course of events, what the component displays is
    consistent: either no mood and no scores yet, or scores that form a
    distribution together with the mood named after their dominant key. *)
Theorem display_is_consistent (evs : list Event) :
  Forall drawsOk evs -> displayConsistent (run evs mounted).
Proof.
  intros Hd.
  assert (H : displayConsistent (run evs mounted) /\ postedConsistent (run evs mounted)).
  { apply (run_invariant (fun w => displayConsistent w /\ postedConsistent w) drawsOk).
    - exact step_display.
    - exact Hd.
    - split; [left; split; reflexivity | constructor]. }
  exact (proj1 H).
Qed.

Lemma display_is_consistent_witness :
  displayConsistent (run (armingEvents ++ [Tick 0 (fun _ => 0.5)]) mounted).
Proof.
  apply display_is_consistent. draws_ok.
Defined.

Lemma label_name_nonempty k : label_name k <> EmptyString.
Proof. destruct k; discriminate. Qed.

(** X16.  Every request the component ever posts carries the name of one of the
    five moods together with the scores it was read from, and the backend
    accepts its body: the answer is 200 and the stored record has that
    mood and the client's timestamp. *)
Theorem posted_requests_accepted (evs : list Event) (d : MoodData) (now : Z) (db : Db) :
  Forall drawsOk evs ->
  In d (posted (run evs mounted)) ->
  moodOfScores (md_mood d) (md_emotionScores d) /\
  exists m,
    route now (PostLog (bodyOf d)) db = (mkResponse 200 (SavedLog m), mkDb (docs db ++ [m]) (S (nextId db))) /\
    log_mood m = md_mood d /\ log_timestamp m = md_timestamp d /\ log_id m = nextId db.
Proof.
  intros Hd Hin.
  destruct (run_display evs Hd) as [_ Hpost]. unfold postedConsistent in Hpost.
  rewrite Forall_forall in Hpost. specialize (Hpost d Hin). split; [exact Hpost|].
  destruct Hpost as (e & _ & Hm & _).
  unfold route, addMoodLog, saveMoodLog, bodyOf. simpl.
  destruct (String.eqb (md_mood d) EmptyString) eqn:E.
  - apply String.eqb_eq in E. rewrite Hm in E. now apply label_name_nonempty in E.
  - eexists. split; [reflexivity|]. repeat split.
Qed.

Lemma posted_requests_accepted_witness :
  exists d m,
    In d (posted (run ((armingEvents ++ [Tick 0 (fun _ => 0.5);
                                         InferenceRejected 0 (fun _ => 0.5)])
                       ++ [SaveClicked 7]) mounted)) /\
    fst (route 9 (PostLog (bodyOf d)) (mkDb [] 0)) = mkResponse 200 (SavedLog m) /\
    log_timestamp m = 7%Z.
Proof.
  set (before := armingEvents ++ [Tick 0 (fun _ => 0.5); InferenceRejected 0 (fun _ => 0.5)]).
  assert (Hd : Forall drawsOk (before ++ [SaveClicked 7])) by (subst before; draws_ok).
  assert (Hin : exists d, In d (posted (run (before ++ [SaveClicked 7]) mounted)) /\
                          md_timestamp d = 7%Z).
  { rewrite run_app.
    change (run [SaveClicked 7] (run before mounted))
      with (handleSaveMood 7 (run before mounted)).
    assert (Hm : mood (run before mounted) =
                 label_name (dominantEmotion
                               (getRandomEmotions (fun _ => 0.5) (cyclePositionAt 0))))
      by reflexivity.
    unfold handleSaveMood.
    destruct (String.eqb (mood (run before mounted)) EmptyString) eqn:E.
    - apply String.eqb_eq in E. rewrite Hm in E.
      exfalso. exact (label_name_nonempty _ E).
    - eexists. split; [simpl; left; reflexivity | reflexivity]. }
  destruct Hin as (d & Hin & Hts).
  destruct (posted_requests_accepted (before ++ [SaveClicked 7]) d 9 (mkDb [] 0) Hd Hin)
    as (_ & m & Hr & _ & Ht & _).
  exists d, m. split; [exact Hin|]. split; [rewrite Hr; reflexivity | rewrite Ht; exact Hts].
Defined.

(** *** The loading chain *)

Ltac ltb_facts :=
  repeat match goal with
  | H : (_ <? _)%nat = true |- _ => apply Nat.ltb_lt in H
  | H : (_ <? _)%nat = false |- _ => apply Nat.ltb_ge in H
  | H : (_ =? _)%nat = true |- _ => apply Nat.eqb_eq in H
  | H : (_ =? _)%nat = false |- _ => apply Nat.eqb_neq in H
  end.

Lemma step_loaderInv w ev : loaderInv w -> loaderInv (step w ev).
Proof.
  unfold loaderInv. destruct w; simpl. intros [Hfh Hph].
  destruct ev; simpl; unfold_handlers; simpl;
    try (split; assumption);
    destruct phase0; simpl in *; try contradiction;
    split_matches_eqn; ltb_facts; simpl;
    rewrite ?length_app; simpl;
    repeat match goal with H : _ /\ _ |- _ => destruct H end;
    subst; repeat split; try reflexivity; try lia; try congruence.
Qed.

Lemma mounted_loaderInv : loaderInv mounted.
Proof. unfold loaderInv; simpl. repeat split; lia. Qed.

(** X17.  After any course of events: both models are set or neither; they are
    set exactly in the phase [Loaded]; the badge flag [modelsLoaded] is set
    exactly when the chain has ended, well or badly; at most three script
    elements have been appended; and the camera has been requested at most
    twice (twice only when the model loads fail after the chain's own
    request). *)
Theorem loader_invariant (evs : list Event) :
  let w := run evs mounted in
  faceModel w = handModel w /\
  (faceModel w = true <-> phase w = Loaded) /\
  (modelsLoaded w = true <-> phase w = Loaded \/ phase w = Failed) /\
  (List.length (scripts w) <= 3)%nat /\
  (videoStarts w <= 2)%nat /\
  (phase w = Loaded -> videoStarts w = 1%nat).
Proof.
  cbv zeta.
  assert (H : loaderInv (run evs mounted)).
  { apply (run_invariant loaderInv (fun _ => True)).
    - intros w ev _. apply step_loaderInv.
    - clear. induction evs; constructor; auto.
    - exact mounted_loaderInv. }
  unfold loaderInv in H. destruct H as [Hfh Hph].
  destruct (phase (run evs mounted)); try contradiction;
    repeat match goal with H : _ /\ _ |- _ => destruct H end;
    repeat split; try assumption; try lia;
    try (intros; congruence); try (intros; discriminate);
    try (intros _; auto; fail);
    try (intros [?|?]; discriminate).
Qed.

Lemma loader_invariant_witness :
  faceModel (run [ScriptLoad 0; ScriptError 1] mounted) = false /\
  modelsLoaded (run [ScriptLoad 0; ScriptError 1] mounted) = true.
Proof.
  destruct (loader_invariant [ScriptLoad 0; ScriptError 1])
    as (_ & Hface & Hbadge & _).
  split; [reflexivity|]. apply Hbadge. right. reflexivity.
Defined.

(** A failure of the model loads requests the camera a second time. *)
Lemma second_camera_request :
  videoStarts (run [ScriptLoad 0; ScriptLoad 1; ScriptLoad 2; StreamSettled true;
                    ModelsRejected] mounted) = 2%nat.
Proof. reflexivity. Qed.

(** *** The busy flag *)

Lemma step_busyInv w ev : busyInv w -> busyInv (step w ev).
Proof.
  unfold busyInv. destruct w; simpl. intros [Hbusy Hoff].
  destruct ev; simpl; unfold_handlers; simpl;
    try (split; assumption);
    split_matches_eqn;
    repeat split; intros; simpl in *; subst;
    repeat match goal with
    | H : ?x = ?x -> _ |- _ => specialize (H eq_refl)
    | H1 : ?P -> _, H2 : ?P |- _ => specialize (H1 H2)
    | H : _ /\ _ |- _ => destruct H
    end;
    subst; try discriminate; try lia; try congruence; auto.
Qed.

Lemma mounted_busyInv : busyInv mounted.
Proof. unfold busyInv; simpl. split; [discriminate | auto]. Qed.

(** X18.  After any course of events: a set busy flag means that at least one
    inference is in flight; and as long as the models are not set (before
    the loads end, and for ever after a failed load) no inference is in
    flight and the flag is clear. *)
Theorem busy_flag_invariant (evs : list Event) :
  let w := run evs mounted in
  (isDetecting w = true -> (1 <= inFlight w)%nat) /\
  (faceModel w = false -> inFlight w = 0%nat /\ isDetecting w = false).
Proof.
  cbv zeta. apply (run_invariant busyInv (fun _ => True)).
  - intros w ev _. apply step_busyInv.
  - clear. induction evs; constructor; auto.
  - exact mounted_busyInv.
Qed.

Lemma busy_flag_invariant_witness :
  inFlight (run [ScriptError 0; VideoMetadata (mkVideo false false 4);
                 Tick 0 (fun _ => 0.5)] mounted) = 0%nat /\
  isDetecting (run [ScriptError 0; VideoMetadata (mkVideo false false 4);
                    Tick 0 (fun _ => 0.5)] mounted) = false.
Proof.
  apply (busy_flag_invariant [ScriptError 0; VideoMetadata (mkVideo false false 4);
                              Tick 0 (fun _ => 0.5)]).
  reflexivity.
Defined.

(** ** The backend *)






(** *** Which records the history returns *)

Lemma insertByTimestamp_perm x l : Permutation (insertByTimestamp x l) (x :: l).
Proof.
  induction l as [|y ys IH]; simpl; [reflexivity|].
  destruct (log_timestamp y <? log_timestamp x)%Z; [reflexivity|].
  rewrite IH. apply perm_swap.
Qed.

Lemma sortNewestFirst_perm l : Permutation (sortNewestFirst l) l.
Proof.
  induction l as [|x l IH] using rev_ind; [reflexivity|].
  rewrite sortNewestFirst_snoc, insertByTimestamp_perm, IH.
  apply Permutation_cons_append.
Qed.

Lemma newestFirst_split n l x y :
  newestFirst l -> In x (firstn n l) -> In y (skipn n l) ->
  (log_timestamp y <= log_timestamp x)%Z.
Proof.
  unfold newestFirst. revert n. induction l as [|z l IH]; intros n Hs Hx Hy.
  - rewrite firstn_nil in Hx. contradiction.
  - destruct n; [contradiction|]. simpl in Hx, Hy.
    inversion Hs as [|? ? Hl Hall]; subst.
    destruct Hx as [-> | Hx].
    + rewrite Forall_forall in Hall. apply Hall.
      rewrite <- (firstn_skipn n l). apply in_or_app. now right.
    + now apply (IH n).
Qed.

(** X21.  The history is the 20 newest records: it holds min(20, n) of the n
    stored records, newest first; when the store holds at most 20 it holds
    them all; and a stored record that is left out is not newer than any
    record that is returned. *)
Theorem history_is_newest (now : Z) (db : Db) :
  exists logs,
    route now GetHistory db = (mkResponse 200 (Logs logs), db) /\
    List.length logs = Nat.min 20 (List.length (docs db)) /\
    newestFirst logs /\
    ((List.length (docs db) <= 20)%nat -> Permutation logs (docs db)) /\
    (forall y, In y (docs db) ->
       In y logs \/ forall x, In x logs -> (log_timestamp y <= log_timestamp x)%Z).
Proof.
  destruct (sortNewestFirst_spec (docs db)) as (Hs & Hin & Hlen).
  exists (firstn 20 (sortNewestFirst (docs db))).
  split; [reflexivity|]. split; [now rewrite length_firstn, Hlen|].
  split; [now apply newestFirst_firstn|]. split.
  - intros Hfew. rewrite firstn_all2 by lia. apply sortNewestFirst_perm.
  - intros y Hy. apply Hin in Hy.
    rewrite <- (firstn_skipn 20 (sortNewestFirst (docs db))) in Hy.
    apply in_app_or in Hy. destruct Hy as [Hy | Hy]; [now left|].
    right. intros x Hx. now apply (newestFirst_split 20 _ x y Hs).
Qed.

Lemma history_is_newest_witness :
  exists logs,
    route 9 GetHistory storeWithOne = (mkResponse 200 (Logs logs), storeWithOne) /\
    Permutation logs (docs storeWithOne).
Proof.
  destruct (history_is_newest 9 storeWithOne) as (logs & Hr & _ & _ & Hperm & _).
  exists logs. split; [exact Hr|]. apply Hperm. simpl; lia.
Defined.

(** ** The history kept by the component *)

Lemma step_history_fits w ev :
  historyFits ev -> (List.length (history w) <= 20)%nat ->
  (List.length (history (step w ev)) <= 20)%nat.
Proof.
  intros Hev Hw.
  destruct ev; simpl in *; try assumption;
    try (unfold_handlers; split_matches; simpl; assumption).
  all: change (S (List.length (firstn 19 (history w))) <= 20)%nat;
    pose proof (firstn_le_length 19 (history w)); lia.
Qed.

(** X22.  The history shown never exceeds 20 entries, as long as no history
    answer does: a successful save puts the saved record in front and
    keeps only the first 19 of the others. *)
Theorem history_stays_capped (evs : list Event) (savedData : MoodLog) (w : World) :
  (Forall historyFits evs -> (List.length (history (run evs mounted)) <= 20)%nat) /\
  (List.length (history (saveSucceeded savedData w)) <= 20)%nat /\
  history (saveSucceeded savedData w) = savedData :: firstn 19 (history w) /\
  notes (saveSucceeded savedData w) = EmptyString.
Proof.
  split; [|split; [|split]]; try reflexivity.
  - intros Hfit.
    apply (run_invariant (fun w => (List.length (history w) <= 20)%nat) historyFits);
      [exact step_history_fits | exact Hfit | simpl; lia].
  - change (S (List.length (firstn 19 (history w))) <= 20)%nat.
    pose proof (firstn_le_length 19 (history w)). lia.
Qed.

Lemma history_stays_capped_witness :
  (List.length (history (run [HistoryLoaded (docs storeWithOne);
                              SaveSucceeded (mkMoodLog 1 "sad" 5 EmptyString None None None 5)]
                           mounted)) <= 20)%nat.
Proof.
  destruct (history_stays_capped
              [HistoryLoaded (docs storeWithOne);
               SaveSucceeded (mkMoodLog 1 "sad" 5 EmptyString None None None 5)]
              (mkMoodLog 1 "sad" 5 EmptyString None None None 5) mounted) as [H _].
  apply H. repeat (apply Forall_cons; [simpl; try lia; exact I|]). apply Forall_nil.
Defined.



(** ** The three bars under the current emotion *)

Lemma insertByScore_perm x l : Permutation (insertByScore x l) (x :: l).
Proof.
  induction l as [|y ys IH]; simpl; [reflexivity|].
  destruct (snd x >? snd y); [reflexivity|].
  rewrite IH. apply perm_swap.
Qed.

Lemma insertByScore_sorted x l : byScore l -> byScore (insertByScore x l).
Proof.
  unfold byScore. induction l as [|y ys IH]; intros Hs; simpl.
  - repeat constructor.
  - inversion Hs as [|? ? Hys Hall]; subst.
    destruct (snd x >? snd y) eqn:E.
    + apply Rgtb_true in E. constructor; [assumption|].
      constructor; [lra|].
      rewrite Forall_forall in Hall |- *. intros z Hz. specialize (Hall z Hz). lra.
    + apply Rgtb_false in E. constructor; [now apply IH|].
      rewrite Forall_forall in Hall |- *. intros z Hz.
      apply (Permutation_in _ (insertByScore_perm x ys)) in Hz.
      destruct Hz as [<- | Hz]; [assumption | now apply Hall].
Qed.

Lemma sortByScore_snoc l x : sortByScore (l ++ [x]) = insertByScore x (sortByScore l).
Proof. unfold sortByScore. now rewrite fold_left_app. Qed.

Lemma sortByScore_spec l : byScore (sortByScore l) /\ Permutation (sortByScore l) l.
Proof.
  induction l as [|x l IH] using rev_ind.
  - split; [constructor | reflexivity].
  - destruct IH as [Hs Hp]. rewrite sortByScore_snoc. split.
    + now apply insertByScore_sorted.
    + rewrite insertByScore_perm, Hp. apply Permutation_cons_append.
Qed.

Lemma in_entries e k v : In (k, v) (entries e) <-> v = get e k.
Proof.
  unfold entries. simpl. split.
  - intros H. repeat (destruct H as [H | H]; [injection H as <- <-; reflexivity|]).
    contradiction.
  - intros ->. destruct k; auto 10.
Qed.

Lemma Label_eq_dec_aux (a b : Label) : a = b \/ a <> b.
Proof. destruct a, b; auto; right; discriminate. Qed.

(** X24.  Whenever scores are displayed, exactly three bars are drawn, for three
    different keys, each with its own score, in order of decreasing score;
    no key without a bar scores more than a key with one; and the first
    bar carries the score of the mood displayed above it (its key is the
    mood itself unless another key ties with it). *)
Theorem top_three_bars (e : Emotions) :
  exists k1 k2 k3,
    topThree (Some e) = [(k1, get e k1); (k2, get e k2); (k3, get e k3)] /\
    NoDup [k1; k2; k3] /\
    get e k3 <= get e k2 <= get e k1 /\
    (forall k, k <> k1 -> k <> k2 -> k <> k3 -> get e k <= get e k3) /\
    get e k1 = get e (dominantEmotion e) /\
    ((forall k, k <> dominantEmotion e -> get e k < get e (dominantEmotion e)) ->
     k1 = dominantEmotion e).
Proof.
  destruct (sortByScore_spec (entries e)) as [Hs Hp].
  assert (Hlen := Permutation_length Hp).
  assert (Hnd : NoDup (map fst (sortByScore (entries e)))).
  { apply (Permutation_NoDup (l := map fst (entries e))).
    - apply Permutation_map. now symmetry.
    - simpl. repeat constructor; simpl; intuition discriminate. }
  assert (Hin : forall k v, In (k, v) (sortByScore (entries e)) <-> v = get e k).
  { intros k v. rewrite <- in_entries. split; apply Permutation_in;
      [exact Hp | now symmetry]. }
  unfold topThree.
  destruct (sortByScore (entries e)) as [|[k1 v1] [|[k2 v2] [|[k3 v3] [|[k4 v4] [|[k5 v5] [|? ?]]]]]];
    try discriminate Hlen.
  assert (H1 : v1 = get e k1) by (apply Hin; simpl; auto 10).
  assert (H2 : v2 = get e k2) by (apply Hin; simpl; auto 10).
  assert (H3 : v3 = get e k3) by (apply Hin; simpl; auto 10).
  assert (H4 : v4 = get e k4) by (apply Hin; simpl; auto 10).
  assert (H5 : v5 = get e k5) by (apply Hin; simpl; auto 10).
  subst v1 v2 v3 v4 v5.
  unfold byScore in Hs.
  repeat match goal with
  | H : StronglySorted _ (_ :: _) |- _ => inversion H; clear H; subst
  | H : Forall _ (_ :: _) |- _ => inversion H; clear H; subst
  end. simpl in *.
  assert (Hall : forall k, k = k1 \/ k = k2 \/ k = k3 \/ k = k4 \/ k = k5).
  { intros k. assert (Hk : In (k, get e k)
                             [(k1, get e k1); (k2, get e k2); (k3, get e k3);
                              (k4, get e k4); (k5, get e k5)])
      by now apply Hin.
    simpl in Hk.
    repeat (destruct Hk as [Hk | Hk]; [injection Hk as <-; auto|]). contradiction. }
  assert (Hmax : forall k, get e k <= get e k1).
  { intros k. destruct (Hall k) as [-> | [-> | [-> | [-> | ->]]]]; lra. }
  exists k1, k2, k3. split; [reflexivity|]. split.
  { inversion Hnd as [|? ? Hn1 Hnd1]; subst. inversion Hnd1 as [|? ? Hn2 Hnd2]; subst.
    inversion Hnd2 as [|? ? Hn3 _]; subst. simpl in *.
    repeat constructor; simpl; intuition. }
  split; [lra|]. split.
  { intros k Hk1 Hk2 Hk3.
    destruct (Hall k) as [-> | [-> | [-> | [-> | ->]]]]; try contradiction; lra. }
  destruct (dominantEmotion_latest e) as [Hdom _].
  split.
  - apply Rle_antisym; [apply Hdom | apply Hmax].
  - intros Hstrict.
    destruct (Label_eq_dec_aux k1 (dominantEmotion e)) as [Heq | Hne]; [assumption|].
    specialize (Hstrict k1 Hne). specialize (Hmax (dominantEmotion e)). lra.
Qed.

Lemma top_three_bars_witness :
  exists k1 k2 k3,
    topThree (Some defaultEmotions) =
      [(k1, get defaultEmotions k1); (k2, get defaultEmotions k2);
       (k3, get defaultEmotions k3)] /\
    k1 = happy.
Proof.
  destruct (top_three_bars defaultEmotions)
    as (k1 & k2 & k3 & Htop & _ & _ & _ & _ & Hfirst).
  exists k1, k2, k3. split; [exact Htop|].
  assert (Hd : dominantEmotion defaultEmotions = happy).
  { apply dominantEmotion_strict_max. intros k Hk.
    destruct k; simpl; try lra. contradiction. }
  rewrite Hd in Hfirst. apply Hfirst.
  intros k Hk. destruct k; simpl; try lra. contradiction.
Defined.

(** ** A face without a usable mesh *)




